(** * doc-Manager: the ingestion job engine and its authorization rules

    A shallow embedding of [DocumentsService], [UsersService] and
    [IngestionService] (NestJS services over TypeORM repositories).

    - A repository is a finite map from primary key to record.
    - A service method is a computation in [M]: it threads the [World]
      (the three repositories, the upload directory and the pending
      timers) and either returns a value or throws.  The world that a
      throwing computation leaves behind is kept: the services write to
      more than one repository without a transaction.
    - [new Date()] is the [now] argument of the methods that call it.
    - The columns [createdAt] and [updatedAt] are maintained by the
      persistence engine and are left out of the records.
    - A repository read without [select] returns the whole row.  A read
      with [select] returns an object that has the selected properties
      only: [LoadedDocument] and [LoadedJob] are the objects that the two
      [findOne] and the two [findAll] load, and a column that the [select]
      leaves out is [None] ([undefined]) on them.  The foreign key
      [uploadedById] makes the id of the joined [uploadedBy] user equal to
      [uploadedById].
    - [findOne({ where: { id } })] with an [id] that is [undefined] has no
      condition left and returns the first row of the table ([firstRow]).
      Which row comes first is the store's choice: the statements use
      only that it is a row of the table.
    - A pending [setTimeout] callback is an entry of the [timers] list; the
      delay is recorded, and the time at which a callback runs is the
      argument of [fire]. *)

From stdpp Require Import gmap strings infinite.
From Stdlib Require Import ZArith.

Open Scope Z_scope.
Open Scope string_scope.

(** ** Values *)

Definition Date := Z.

(** [Record<string, any>]: the free-form payloads. *)
#[local] Unset Elimination Schemes.
Inductive Json :=
| JNull
| JBool (b : bool)
| JNumber (n : Z)
| JString (s : string)
| JArray (items : list Json)
| JObject (fields : list (string * Json)).
#[local] Set Elimination Schemes.

Module UserRole.
(** Modelled from the spec: the enum [UserRole] of user.entity.ts, which
    is not among the sources; role ∈ {admin, editor, viewer}. *)
Inductive t := ADMIN | EDITOR | VIEWER.
#[global] Instance UserRole_eq_dec : EqDecision t.
Proof. solve_decision. Defined.
End UserRole.

Module DocumentStatus.
Inductive t := UPLOADED | PROCESSING | PROCESSED | FAILED.
#[global] Instance DocumentStatus_eq_dec : EqDecision t.
Proof. solve_decision. Defined.
End DocumentStatus.

Module IngestionStatus.
Inductive t := PENDING | RUNNING | COMPLETED | FAILED | CANCELLED.
#[global] Instance IngestionStatus_eq_dec : EqDecision t.
Proof. solve_decision. Defined.

(** The array literal [[COMPLETED, FAILED, CANCELLED]] of [update] and
    [handleWebhook], with [Array.prototype.includes]. *)
Definition terminal : list t := [COMPLETED; FAILED; CANCELLED].
Definition includes (l : list t) (s : t) : bool := bool_decide (s ∈ l).
End IngestionStatus.

(** ** Entities *)

Module User.
(** Modelled from the spec: the entity [User] of user.entity.ts, which is
    not among the sources; the fields are those of the test fixtures. *)
Record t := mk {
  id : string;
  email : string;
  firstName : string;
  lastName : string;
  password : string;
  role : UserRole.t;
  isActive : bool
}.
Definition set_email (x : string) (u : t) : t :=
  mk (id u) x (firstName u) (lastName u) (password u) (role u) (isActive u).
Definition set_firstName (x : string) (u : t) : t :=
  mk (id u) (email u) x (lastName u) (password u) (role u) (isActive u).
Definition set_lastName (x : string) (u : t) : t :=
  mk (id u) (email u) (firstName u) x (password u) (role u) (isActive u).
Definition set_password (x : string) (u : t) : t :=
  mk (id u) (email u) (firstName u) (lastName u) x (role u) (isActive u).
Definition set_role (r : UserRole.t) (u : t) : t :=
  mk (id u) (email u) (firstName u) (lastName u) (password u) r (isActive u).
Definition set_isActive (b : bool) (u : t) : t :=
  mk (id u) (email u) (firstName u) (lastName u) (password u) (role u) b.
End User.

Module Document.
Record t := mk {
  id : string;
  filename : string;
  originalName : string;
  mimeType : string;
  size : Z;
  filePath : string;
  status : DocumentStatus.t;
  description : option string;
  metadata : option Json;
  uploadedById : string
}.
Definition set_status (s : DocumentStatus.t) (d : t) : t :=
  mk (id d) (filename d) (originalName d) (mimeType d) (size d) (filePath d)
     s (description d) (metadata d) (uploadedById d).
Definition set_description (x : option string) (d : t) : t :=
  mk (id d) (filename d) (originalName d) (mimeType d) (size d) (filePath d)
     (status d) x (metadata d) (uploadedById d).
Definition set_metadata (x : option Json) (d : t) : t :=
  mk (id d) (filename d) (originalName d) (mimeType d) (size d) (filePath d)
     (status d) (description d) x (uploadedById d).
End Document.

Module IngestionJob.
Record t := mk {
  id : string;
  status : IngestionStatus.t;
  errorMessage : option string;
  result : option Json;
  config : option Json;
  startedAt : option Date;
  completedAt : option Date;
  documentId : string
}.
Definition set_status (s : IngestionStatus.t) (j : t) : t :=
  mk (id j) s (errorMessage j) (result j) (config j) (startedAt j)
     (completedAt j) (documentId j).
Definition set_errorMessage (x : option string) (j : t) : t :=
  mk (id j) (status j) x (result j) (config j) (startedAt j)
     (completedAt j) (documentId j).
Definition set_result (x : option Json) (j : t) : t :=
  mk (id j) (status j) (errorMessage j) x (config j) (startedAt j)
     (completedAt j) (documentId j).
Definition set_startedAt (x : option Date) (j : t) : t :=
  mk (id j) (status j) (errorMessage j) (result j) (config j) x
     (completedAt j) (documentId j).
Definition set_completedAt (x : option Date) (j : t) : t :=
  mk (id j) (status j) (errorMessage j) (result j) (config j) (startedAt j)
     x (documentId j).
End IngestionJob.

(** ** Entities as a [select] loads them *)

Module LoadedDocument.
(** A document as [DocumentsService.findOne] and [findAll] load it.  Their
    [select] lists every column but [uploadedById], and the joined
    [uploadedBy] user: [uploadedById] is [undefined] on the object, and
    [uploadedBy] is the id of the joined user. *)
Record t := mk {
  id : string;
  filename : string;
  filePath : string;
  originalName : string;
  mimeType : string;
  size : Z;
  status : DocumentStatus.t;
  description : option string;
  metadata : option Json;
  uploadedById : option string;
  uploadedBy : string
}.
Definition load (d : Document.t) : t :=
  mk (Document.id d) (Document.filename d) (Document.filePath d)
     (Document.originalName d) (Document.mimeType d) (Document.size d)
     (Document.status d) (Document.description d) (Document.metadata d)
     None (Document.uploadedById d).
End LoadedDocument.

Module DocumentOfJob.
(** [job.document] as [IngestionService.findOne] and [findAll] load it:
    [id], [filename], [originalName] and the id of the joined [uploadedBy]
    user. *)
Record t := mk {
  id : string;
  filename : string;
  originalName : string;
  uploadedBy : string
}.
Definition load (d : Document.t) : t :=
  mk (Document.id d) (Document.filename d) (Document.originalName d)
     (Document.uploadedById d).
End DocumentOfJob.

Module LoadedJob.
(** A job as [IngestionService.findOne] and [findAll] load it.  Their
    [select] lists every column but [documentId], and the joined document:
    [documentId] is [undefined] on the object, and [document] is [null]
    when the left join finds no row. *)
Record t := mk {
  id : string;
  status : IngestionStatus.t;
  errorMessage : option string;
  result : option Json;
  config : option Json;
  startedAt : option Date;
  completedAt : option Date;
  documentId : option string;
  document : option DocumentOfJob.t
}.
Definition set_status (s : IngestionStatus.t) (j : t) : t :=
  mk (id j) s (errorMessage j) (result j) (config j) (startedAt j)
     (completedAt j) (documentId j) (document j).
Definition set_errorMessage (x : option string) (j : t) : t :=
  mk (id j) (status j) x (result j) (config j) (startedAt j)
     (completedAt j) (documentId j) (document j).
Definition set_result (x : option Json) (j : t) : t :=
  mk (id j) (status j) (errorMessage j) x (config j) (startedAt j)
     (completedAt j) (documentId j) (document j).
Definition set_startedAt (x : option Date) (j : t) : t :=
  mk (id j) (status j) (errorMessage j) (result j) (config j) x
     (completedAt j) (documentId j) (document j).
Definition set_completedAt (x : option Date) (j : t) : t :=
  mk (id j) (status j) (errorMessage j) (result j) (config j) (startedAt j)
     x (documentId j) (document j).
Definition load (j : IngestionJob.t) (d : option Document.t) : t :=
  mk (IngestionJob.id j) (IngestionJob.status j) (IngestionJob.errorMessage j)
     (IngestionJob.result j) (IngestionJob.config j) (IngestionJob.startedAt j)
     (IngestionJob.completedAt j) None (DocumentOfJob.load <$> d).

(** What saving the object writes over the row it was loaded from: the
    columns that the object has.  The id of [job.document] is the
    [documentId] of the row, so the foreign key keeps its value. *)
Definition store (job : t) (row : IngestionJob.t) : IngestionJob.t :=
  IngestionJob.mk (IngestionJob.id row) (status job) (errorMessage job)
    (result job) (config job) (startedAt job) (completedAt job)
    (default (IngestionJob.documentId row) (documentId job)).
End LoadedJob.

(** ** Request payloads *)

Record CreateIngestionJobDto := {
  cj_documentId : string;
  cj_config : option Json
}.

(** An absent property is [None]; the validation pipe strips every
    property that the class does not declare. *)
Record UpdateIngestionJobDto := {
  uj_status : option IngestionStatus.t;
  uj_errorMessage : option string;
  uj_result : option Json
}.

Record UpdateDocumentDto := {
  ud_description : option string;
  ud_metadata : option Json;
  ud_status : option DocumentStatus.t
}.

(** [Express.Multer.File]: the fields that [DocumentsService.create]
    reads.  The upload directory is modelled as the set of paths that
    exist, so the bytes of [buffer] are not kept. *)
Record MulterFile := {
  originalname : string;
  mimetype : string;
  mf_size : Z;
  buffer : string
}.

Record CreateDocumentDto := {
  cd_description : option string;
  cd_metadata : option Json
}.

(** Modelled from the spec: the class [UpdateUserDto] of
    update-user.dto.ts, which is not among the sources; the properties are
    those of [CreateUserDto], each of them optional: the profile fields
    and the role. *)
Record UpdateUserDto := {
  uu_email : option string;
  uu_firstName : option string;
  uu_lastName : option string;
  uu_password : option string;
  uu_role : option UserRole.t
}.

(** ** Exceptions *)

Inductive Exception :=
| NotFoundException (message : string)
| ForbiddenException (message : string)
| BadRequestException (message : string)
| TypeError (message : string).

Inductive ErrorKind := NotFound | Forbidden | BadRequest | Internal.

Definition kind (e : Exception) : ErrorKind :=
  match e with
  | NotFoundException _ => NotFound
  | ForbiddenException _ => Forbidden
  | BadRequestException _ => BadRequest
  | TypeError _ => Internal
  end.

(** ** The world and the service monad *)

(** The two closures that [simulateIngestionProcess] hands to
    [setTimeout].  The inner one closes over the job object that the outer
    one has read and modified, not over the job id. *)
Inductive Callback :=
| SimulateRunning (jobId : string)
| SimulateCompleted (job : IngestionJob.t).

Record Timeout := { callback : Callback; delay : Z }.

Record World := mkWorld {
  usersRepository : gmap string User.t;
  documentsRepository : gmap string Document.t;
  ingestionJobsRepository : gmap string IngestionJob.t;
  uploads : gset string;
  timers : list Timeout
}.

Inductive Result (A : Type) :=
| Ok (a : A)
| Throw (e : Exception).
Arguments Ok {A} a.
Arguments Throw {A} e.

Definition M (A : Type) : Type := World → Result A * World.

#[global] Instance M_ret : MRet M := λ A a w, (Ok a, w).
#[global] Instance M_bind : MBind M := λ A B f m w,
  match m w with
  | (Ok a, w') => f a w'
  | (Throw e, w') => (Throw e, w')
  end.

Definition throw {A} (e : Exception) : M A := λ w, (Throw e, w).

(** [try { ... } catch (error) { console.error(...) }] *)
Definition try_catch (m : M unit) : M unit := λ w,
  match m w with
  | (Ok a, w') => (Ok a, w')
  | (Throw _, w') => (Ok (), w')
  end.

Definition get {A} (f : World → A) : M A := λ w, (Ok (f w), w).
Definition modify (f : World → World) : M unit := λ w, (Ok (), f w).

Definition set_users (f : gmap string User.t → gmap string User.t) (w : World) : World :=
  mkWorld (f (usersRepository w)) (documentsRepository w)
          (ingestionJobsRepository w) (uploads w) (timers w).
Definition set_documents (f : gmap string Document.t → gmap string Document.t)
    (w : World) : World :=
  mkWorld (usersRepository w) (f (documentsRepository w))
          (ingestionJobsRepository w) (uploads w) (timers w).
Definition set_jobs (f : gmap string IngestionJob.t → gmap string IngestionJob.t)
    (w : World) : World :=
  mkWorld (usersRepository w) (documentsRepository w)
          (f (ingestionJobsRepository w)) (uploads w) (timers w).
Definition set_uploads (f : gset string → gset string) (w : World) : World :=
  mkWorld (usersRepository w) (documentsRepository w)
          (ingestionJobsRepository w) (f (uploads w)) (timers w).
Definition set_timers (f : list Timeout → list Timeout) (w : World) : World :=
  mkWorld (usersRepository w) (documentsRepository w)
          (ingestionJobsRepository w) (uploads w) (f (timers w)).

(** [setTimeout(callback, delay)]: the callback joins the pending timers. *)
Definition enqueue (cb : Callback) (ms : Z) (ts : list Timeout) : list Timeout :=
  (ts ++ [Build_Timeout cb ms])%list.
Arguments enqueue : simpl never.

Definition setTimeout (cb : Callback) (ms : Z) : M unit :=
  modify (set_timers (enqueue cb ms)).

(** [repository.findOne({ where: { id } })] without [select].  When [id]
    is [undefined] the condition is dropped and the store returns the
    first row it has. *)
Definition firstRow {A} (table : gmap string A) : option A :=
  snd <$> head (map_to_list table).

Definition findOneWhere {A} (id : option string) (table : gmap string A)
    : option A :=
  match id with
  | Some id => table !! id
  | None => firstRow table
  end.

(** ** DocumentsService *)

Module DocumentsService.

(** The object that [findOne] loads has no [uploadedById]: the guard
    compares [undefined] with the id of the actor. *)
Definition findOne (id : string) (user : User.t) : M LoadedDocument.t :=
  document ← get (λ w, LoadedDocument.load <$> documentsRepository w !! id);
  match document with
  | None => throw (NotFoundException "Document not found")
  | Some document =>
      if decide (User.role user ≠ UserRole.ADMIN
                 ∧ LoadedDocument.uploadedById document ≠ Some (User.id user))
      then throw (ForbiddenException "You can only access your own documents")
      else mret document
  end.

Definition assign (dto : UpdateDocumentDto) (d : Document.t) : Document.t :=
  let d := from_option (λ x, Document.set_description (Some x) d) d (ud_description dto) in
  let d := from_option (λ x, Document.set_metadata (Some x) d) d (ud_metadata dto) in
  from_option (λ x, Document.set_status x d) d (ud_status dto).

Definition update (id : string) (updateDocumentDto : UpdateDocumentDto)
    (user : User.t) : M Document.t :=
  document ← get (λ w, documentsRepository w !! id);
  match document with
  | None => throw (NotFoundException "Document not found")
  | Some document =>
      if decide (User.role user ≠ UserRole.ADMIN
                 ∧ Document.uploadedById document ≠ User.id user)
      then throw (ForbiddenException "You can only update your own documents")
      else if decide (is_Some (ud_status updateDocumentDto)
                      ∧ User.role user ≠ UserRole.ADMIN)
      then throw (ForbiddenException "Only admins can update document status")
      else
        let document := assign updateDocumentDto document in
        _ ← modify (set_documents <[Document.id document := document]>);
        mret document
  end.

Definition remove (id : string) (user : User.t) : M unit :=
  document ← get (λ w, documentsRepository w !! id);
  match document with
  | None => throw (NotFoundException "Document not found")
  | Some document =>
      if decide (User.role user ≠ UserRole.ADMIN
                 ∧ Document.uploadedById document ≠ User.id user)
      then throw (ForbiddenException "You can only delete your own documents")
      else
        _ ← modify (set_uploads (λ fs, fs ∖ {[Document.filePath document]}));
        modify (set_documents (delete (Document.id document)))
  end.

(** [updateStatus]: the [id] is what the caller passes, and
    [IngestionService.update] and [cancel] pass the [documentId] of a
    loaded job, which is [undefined]. *)
Definition updateStatus (id : option string) (status : DocumentStatus.t)
    (user : User.t) : M Document.t :=
  if decide (User.role user ≠ UserRole.ADMIN)
  then throw (ForbiddenException "Only admins can update document status")
  else
    document ← get (λ w, findOneWhere id (documentsRepository w));
    match document with
    | None => throw (NotFoundException "Document not found")
    | Some document =>
        let document := Document.set_status status document in
        _ ← modify (set_documents <[Document.id document := document]>);
        mret document
    end.

(** [create]: [uuid] is the value of [uuidv4()], and [resolve filename]
    stands for [path.join(this.uploadPath, filename)]; the store generates
    the primary key of the new row. *)
Definition create (resolve : string → string) (uuid : string)
    (file : option MulterFile) (createDocumentDto : CreateDocumentDto)
    (user : User.t) : M Document.t :=
  match file with
  | None => throw (BadRequestException "No file provided")
  | Some file =>
      let filename := uuid +:+ "-" +:+ originalname file in
      let filePath := resolve filename in
      _ ← modify (set_uploads (λ fs, {[filePath]} ∪ fs));
      id ← get (λ w, fresh (dom (documentsRepository w)));
      let document :=
        Document.mk id filename (originalname file) (mimetype file)
          (mf_size file) filePath DocumentStatus.UPLOADED
          (cd_description createDocumentDto) (cd_metadata createDocumentDto)
          (User.id user) in
      _ ← modify (set_documents <[Document.id document := document]>);
      mret document
  end.

(** [findAll]: the rows of the table, restricted by the [where] clause
    (on the column [uploadedById]) for an actor who is not an admin, and
    loaded with the same [select] as in [findOne]. *)
Definition findAll (user : User.t) : M (list LoadedDocument.t) :=
  get (λ w,
    let rows := (map_to_list (documentsRepository w)).*2 in
    LoadedDocument.load <$>
      (if decide (User.role user ≠ UserRole.ADMIN)
       then filter (λ D, Document.uploadedById D = User.id user) rows
       else rows)).

Definition downloadDocument (id : string) (user : User.t) : M (string * string) :=
  document ← findOne id user;
  onDisk ← get (λ w, bool_decide (LoadedDocument.filePath document ∈ uploads w));
  if negb onDisk
  then throw (NotFoundException "File not found on disk")
  else mret (LoadedDocument.filePath document,
             LoadedDocument.originalName document).

End DocumentsService.

(** ** UsersService *)

Module UsersService.

(** [usersRepository.delete(id)]: the number of affected rows. *)
Definition delete_ (id : string) : M Z := λ w,
  match usersRepository w !! id with
  | Some _ => (Ok 1, set_users (delete id) w)
  | None => (Ok 0, w)
  end.

(** [Object.assign(user, updateUserDto)] *)
Definition assign (dto : UpdateUserDto) (u : User.t) : User.t :=
  let u := from_option (λ x, User.set_email x u) u (uu_email dto) in
  let u := from_option (λ x, User.set_firstName x u) u (uu_firstName dto) in
  let u := from_option (λ x, User.set_lastName x u) u (uu_lastName dto) in
  let u := from_option (λ x, User.set_password x u) u (uu_password dto) in
  from_option (λ x, User.set_role x u) u (uu_role dto).

Definition update (id : string) (updateUserDto : UpdateUserDto)
    (currentUser : User.t) : M User.t :=
  user ← get (λ w, usersRepository w !! id);
  match user with
  | None => throw (NotFoundException "User not found")
  | Some user =>
      if decide (is_Some (uu_role updateUserDto)
                 ∧ User.role currentUser ≠ UserRole.ADMIN)
      then throw (ForbiddenException "Only admins can update user roles")
      else if decide (User.role currentUser ≠ UserRole.ADMIN
                      ∧ User.id currentUser ≠ id)
      then throw (ForbiddenException "You can only update your own profile")
      else
        let user := assign updateUserDto user in
        _ ← modify (set_users <[User.id user := user]>);
        mret user
  end.

Definition remove (id : string) (currentUser : User.t) : M unit :=
  if decide (User.role currentUser ≠ UserRole.ADMIN)
  then throw (ForbiddenException "Only admins can delete users")
  else if decide (User.id currentUser = id)
  then throw (ForbiddenException "You cannot delete your own account")
  else
    affected ← delete_ id;
    if decide (affected = 0)
    then throw (NotFoundException "User not found")
    else mret ().

Definition updateRole (id : string) (role : UserRole.t) (currentUser : User.t)
    : M User.t :=
  if decide (User.role currentUser ≠ UserRole.ADMIN)
  then throw (ForbiddenException "Only admins can update user roles")
  else
    user ← get (λ w, usersRepository w !! id);
    match user with
    | None => throw (NotFoundException "User not found")
    | Some user =>
        let user := User.set_role role user in
        _ ← modify (set_users <[User.id user := user]>);
        mret user
    end.

Definition updateUserStatus (id : string) (currentUser : User.t) : M User.t :=
  if decide (User.role currentUser ≠ UserRole.ADMIN)
  then throw (ForbiddenException "Only admins can update user status")
  else if decide (User.id currentUser = id)
  then throw (ForbiddenException "You cannot deactivate your own account")
  else
    user ← get (λ w, usersRepository w !! id);
    match user with
    | None => throw (NotFoundException "User not found")
    | Some user =>
        let user := User.set_isActive (negb (User.isActive user)) user in
        _ ← modify (set_users <[User.id user := user]>);
        mret user
    end.

End UsersService.

(** ** IngestionService *)

Module IngestionService.

(** [ingestionJobsRepository.save(job)] for a job that carries its id: the
    row with that id is written (inserted when it is not there). *)
Definition save (job : IngestionJob.t) : M IngestionJob.t :=
  _ ← modify (set_jobs <[IngestionJob.id job := job]>);
  mret job.

(** [ingestionJobsRepository.create({...})] followed by [save]: the store
    generates a primary key that no row uses. *)
Definition create_and_save (documentId : string) (config : Json)
    (status : IngestionStatus.t) : M IngestionJob.t :=
  id ← get (λ w, fresh (dom (ingestionJobsRepository w)));
  save (IngestionJob.mk id status None None (Some config) None None documentId).

(** [ingestionJobsRepository.save(job)] for a job that [findOne] has
    loaded: the columns that the object has are written to the row with
    its id. *)
Definition saveLoaded (job : LoadedJob.t) : M LoadedJob.t :=
  _ ← modify (set_jobs (alter (LoadedJob.store job) (LoadedJob.id job)));
  mret job.

(** [ingestionJobsRepository.delete(id)]: the number of affected rows. *)
Definition delete_ (id : string) : M Z := λ w,
  match ingestionJobsRepository w !! id with
  | Some _ => (Ok 1, set_jobs (delete id) w)
  | None => (Ok 0, w)
  end.

(** The result payload of the simulated processor. *)
Definition sampleResult : Json :=
  JObject [("extractedText", JString "Sample extracted text from document...");
           ("summary", JString "This is a sample summary of the document.");
           ("language", JString "en");
           ("wordCount", JNumber 150)].

Definition simulateIngestionProcess (jobId : string) : M unit :=
  setTimeout (SimulateRunning jobId) 1000.

(** What each closure does when its timer fires. *)
Definition runCallback (cb : Callback) (now : Date) : M unit :=
  match cb with
  | SimulateRunning jobId =>
      try_catch (
        job ← get (λ w, ingestionJobsRepository w !! jobId);
        match job with
        | Some job =>
            let job := IngestionJob.set_status IngestionStatus.RUNNING job in
            let job := IngestionJob.set_startedAt (Some now) job in
            _ ← save job;
            setTimeout (SimulateCompleted job) 5000
        | None => mret ()
        end)
  | SimulateCompleted job =>
      let job := IngestionJob.set_status IngestionStatus.COMPLETED job in
      let job := IngestionJob.set_completedAt (Some now) job in
      let job := IngestionJob.set_result (Some sampleResult) job in
      _ ← save job;
      mret ()
  end.

(** The event loop runs the [n]-th pending timer at time [now]. *)
Definition fire (n : nat) (now : Date) : M unit := λ w,
  match timers w !! n with
  | Some t => runCallback (callback t) now (set_timers (delete n) w)
  | None => (Ok (), w)
  end.

(** [DocumentsService.findOne] returns a document or throws, so the test
    [if (!document)] of the source never fires. *)
Definition create (createIngestionJobDto : CreateIngestionJobDto) (user : User.t)
    : M IngestionJob.t :=
  document ← DocumentsService.findOne (cj_documentId createIngestionJobDto) user;
  if decide (LoadedDocument.status document = DocumentStatus.PROCESSING)
  then throw (BadRequestException "Document is already being processed")
  else
    savedJob ← create_and_save (cj_documentId createIngestionJobDto)
                 (default (JObject []) (cj_config createIngestionJobDto))
                 IngestionStatus.PENDING;
    _ ← DocumentsService.updateStatus (Some (cj_documentId createIngestionJobDto))
          DocumentStatus.PROCESSING user;
    _ ← simulateIngestionProcess (IngestionJob.id savedJob);
    mret savedJob.

(** [job.document.uploadedBy.id !== user.id] on a loaded job; reading
    through a missing document is a [TypeError]. *)
Definition notOwner (document : option DocumentOfJob.t) (user : User.t) : M bool :=
  match document with
  | Some document =>
      mret (bool_decide (DocumentOfJob.uploadedBy document ≠ User.id user))
  | None => throw (TypeError "Cannot read properties of null (reading 'uploadedBy')")
  end.

(** [user.role !== ADMIN && job.document.uploadedBy.id !== user.id]; the
    right operand is evaluated only for a non-admin. *)
Definition notAdminNorOwner (document : option DocumentOfJob.t) (user : User.t)
    : M bool :=
  if decide (User.role user ≠ UserRole.ADMIN) then notOwner document user
  else mret false.

(** [findOne] loads the job with its document and the owner of the
    document; the guard reads [job.document.uploadedBy.id], which the
    [select] lists. *)
Definition findOne (id : string) (user : User.t) : M LoadedJob.t :=
  job ← get (λ w, ingestionJobsRepository w !! id);
  match job with
  | None => throw (NotFoundException "Ingestion job not found")
  | Some job =>
      document ← get (λ w, documentsRepository w !! IngestionJob.documentId job);
      let job := LoadedJob.load job document in
      denied ← notAdminNorOwner (LoadedJob.document job) user;
      if denied : bool
      then throw (ForbiddenException "You can only access jobs for your own documents")
      else mret job
  end.

(** [dto.status && [COMPLETED, FAILED, CANCELLED].includes(dto.status)] *)
Definition terminalStatus (dto : UpdateIngestionJobDto) : bool :=
  from_option (IngestionStatus.includes IngestionStatus.terminal) false (uj_status dto).

(** [Object.assign(job, updateIngestionJobDto)] in [update], on the loaded
    job. *)
Definition assignLoaded (dto : UpdateIngestionJobDto) (job : LoadedJob.t)
    : LoadedJob.t :=
  let job := from_option (λ x, LoadedJob.set_status x job) job (uj_status dto) in
  let job := from_option (λ x, LoadedJob.set_errorMessage (Some x) job) job
               (uj_errorMessage dto) in
  from_option (λ x, LoadedJob.set_result (Some x) job) job (uj_result dto).

Definition stampStartedLoaded (dto : UpdateIngestionJobDto) (now : Date)
    (job : LoadedJob.t) : LoadedJob.t :=
  if decide (uj_status dto = Some IngestionStatus.RUNNING
             ∧ LoadedJob.startedAt job = None)
  then LoadedJob.set_startedAt (Some now) job
  else job.

(** [update] and [cancel] work on the job that [findOne] returns, and
    hand its [documentId], which the [select] has not loaded, to
    [DocumentsService.updateStatus]. *)
Definition update (id : string) (updateIngestionJobDto : UpdateIngestionJobDto)
    (user : User.t) (now : Date) : M LoadedJob.t :=
  job ← findOne id user;
  if decide (User.role user ≠ UserRole.ADMIN)
  then throw (ForbiddenException "Only admins can update ingestion jobs")
  else
    let job := assignLoaded updateIngestionJobDto job in
    let job := stampStartedLoaded updateIngestionJobDto now job in
    job ← (if terminalStatus updateIngestionJobDto
              && bool_decide (LoadedJob.completedAt job = None)
           then
             let job := LoadedJob.set_completedAt (Some now) job in
             let documentStatus :=
               if decide (uj_status updateIngestionJobDto
                          = Some IngestionStatus.COMPLETED)
               then DocumentStatus.PROCESSED
               else DocumentStatus.FAILED in
             _ ← DocumentsService.updateStatus (LoadedJob.documentId job)
                   documentStatus user;
             mret job
           else mret job);
    saveLoaded job.

Definition cancel (id : string) (user : User.t) (now : Date) : M LoadedJob.t :=
  job ← findOne id user;
  if decide (LoadedJob.status job = IngestionStatus.COMPLETED
             ∨ LoadedJob.status job = IngestionStatus.FAILED)
  then throw (BadRequestException "Cannot cancel a completed or failed job")
  else
    denied ← notAdminNorOwner (LoadedJob.document job) user;
    if denied : bool
    then throw (ForbiddenException "You can only cancel jobs for your own documents")
    else
      let job := LoadedJob.set_status IngestionStatus.CANCELLED job in
      let job := LoadedJob.set_completedAt (Some now) job in
      updatedJob ← saveLoaded job;
      _ ← DocumentsService.updateStatus (LoadedJob.documentId job)
            DocumentStatus.UPLOADED user;
      mret updatedJob.

Definition remove (id : string) (user : User.t) : M unit :=
  if decide (User.role user ≠ UserRole.ADMIN)
  then throw (ForbiddenException "Only admins can delete ingestion jobs")
  else
    affected ← delete_ id;
    if decide (affected = 0)
    then throw (NotFoundException "Ingestion job not found")
    else mret ().

(** [Object.assign(job, updateData)] in [handleWebhook], on the whole
    row. *)
Definition assign (dto : UpdateIngestionJobDto) (job : IngestionJob.t)
    : IngestionJob.t :=
  let job := from_option (λ x, IngestionJob.set_status x job) job (uj_status dto) in
  let job := from_option (λ x, IngestionJob.set_errorMessage (Some x) job) job
               (uj_errorMessage dto) in
  from_option (λ x, IngestionJob.set_result (Some x) job) job (uj_result dto).

Definition stampStarted (dto : UpdateIngestionJobDto) (now : Date)
    (job : IngestionJob.t) : IngestionJob.t :=
  if decide (uj_status dto = Some IngestionStatus.RUNNING
             ∧ IngestionJob.startedAt job = None)
  then IngestionJob.set_startedAt (Some now) job
  else job.

(** [handleWebhook] reads the job without [select]: the whole row. *)
Definition handleWebhook (jobId : string) (updateData : UpdateIngestionJobDto)
    (now : Date) : M IngestionJob.t :=
  job ← get (λ w, ingestionJobsRepository w !! jobId);
  match job with
  | None => throw (NotFoundException "Ingestion job not found")
  | Some job =>
      let job := assign updateData job in
      let job := stampStarted updateData now job in
      let job :=
        if terminalStatus updateData
           && bool_decide (IngestionJob.completedAt job = None)
        then IngestionJob.set_completedAt (Some now) job
        else job in
      save job
  end.

(** [findAll]: every job with its left-joined document, loaded with the
    same [select] as in [findOne]; for an actor who is not an admin the
    [where] clause keeps the jobs whose document is there and is owned by
    the actor. *)
Definition findAll (user : User.t) : M (list LoadedJob.t) :=
  get (λ w,
    let rows :=
      (λ job, LoadedJob.load job
                (documentsRepository w !! IngestionJob.documentId job))
        <$> (map_to_list (ingestionJobsRepository w)).*2 in
    if decide (User.role user ≠ UserRole.ADMIN)
    then filter (λ job, DocumentOfJob.uploadedBy <$> LoadedJob.document job
                        = Some (User.id user)) rows
    else rows).

End IngestionService.

(** ** Fixtures *)

Module Fixtures.

Definition admin : User.t :=
  User.mk "u-admin" "admin@example.com" "Admin" "User" "hashedPassword"
          UserRole.ADMIN true.
Definition editor : User.t :=
  User.mk "u-editor" "editor@example.com" "Erin" "Editor" "hashedPassword"
          UserRole.EDITOR true.
Definition viewer : User.t :=
  User.mk "u-viewer" "viewer@example.com" "Vic" "Viewer" "hashedPassword"
          UserRole.VIEWER true.

Definition doc (status : DocumentStatus.t) : Document.t :=
  Document.mk "d1" "a1b2-report.pdf" "report.pdf" "application/pdf" 1024
              "uploads/a1b2-report.pdf" status None None "u-editor".

Definition job (status : IngestionStatus.t) (startedAt completedAt : option Date)
    : IngestionJob.t :=
  IngestionJob.mk "j1" status None None (Some (JObject [])) startedAt completedAt
                  "d1".

Definition users : gmap string User.t :=
  <["u-admin" := admin]> (<["u-editor" := editor]> (<["u-viewer" := viewer]> ∅)).

(** One document owned by the editor, no job yet. *)
Definition world0 (status : DocumentStatus.t) : World :=
  mkWorld users {["d1" := doc status]} ∅ {["uploads/a1b2-report.pdf"]} [].

(** The same document with one job on it. *)
Definition world1 (dstatus : DocumentStatus.t) (j : IngestionJob.t) : World :=
  mkWorld users {["d1" := doc dstatus]} {["j1" := j]}
          {["uploads/a1b2-report.pdf"]} [].

End Fixtures.

(** ** Reading a world *)

(** [D] is a row of the documents table (stored under its own id). *)
Definition stored_document (w : World) (D : Document.t) : Prop :=
  documentsRepository w !! Document.id D = Some D.

(** [J] is a row of the ingestion_jobs table. *)
Definition stored_job (w : World) (J : IngestionJob.t) : Prop :=
  ingestionJobsRepository w !! IngestionJob.id J = Some J.

Definition documentStatus (w : World) (id : string) : option DocumentStatus.t :=
  Document.status <$> documentsRepository w !! id.

Definition jobStatus (w : World) (id : string) : option IngestionStatus.t :=
  IngestionJob.status <$> ingestionJobsRepository w !! id.

(** The rule that the two [findOne] methods are written for: the actor is
    an admin or the owner of the document. *)
Definition canView (user : User.t) (D : Document.t) : Prop :=
  User.role user = UserRole.ADMIN ∨ User.id user = Document.uploadedById D.

#[global] Instance canView_dec user D : Decision (canView user D).
Proof. unfold canView. apply _. Defined.

Definition terminal (s : IngestionStatus.t) : Prop :=
  s ∈ IngestionStatus.terminal.

#[global] Instance terminal_dec s : Decision (terminal s).
Proof. unfold terminal. apply _. Defined.

(** ** Vocabulary of the statements *)

(** The row that [create] writes for document [D] in world [w]. *)
Definition pendingJob (w : World) (D : Document.t) (config : option Json)
    : IngestionJob.t :=
  IngestionJob.mk (fresh (dom (ingestionJobsRepository w)))
    IngestionStatus.PENDING None None (Some (default (JObject []) config))
    None None (Document.id D).

(** The object that [IngestionService.findOne] loads for the row [J]. *)
Definition loadedJob (w : World) (J : IngestionJob.t) : LoadedJob.t :=
  LoadedJob.load J (documentsRepository w !! IngestionJob.documentId J).

(** What [cancel] writes over the job it has loaded. *)
Definition cancelled (now : Date) (J : IngestionJob.t) : IngestionJob.t :=
  IngestionJob.set_completedAt (Some now)
    (IngestionJob.set_status IngestionStatus.CANCELLED J).

(** The row that [update] and [handleWebhook] leave in the table:
    [Object.assign], then the two timestamp guards. *)
Definition merged (dto : UpdateIngestionJobDto) (now : Date) (J : IngestionJob.t)
    : IngestionJob.t :=
  let job := IngestionService.stampStarted dto now (IngestionService.assign dto J) in
  if IngestionService.terminalStatus dto
     && bool_decide (IngestionJob.completedAt job = None)
  then IngestionJob.set_completedAt (Some now) job
  else job.

(** The document status that [update] cascades for a terminal payload. *)
Definition cascaded (dto : UpdateIngestionJobDto) : DocumentStatus.t :=
  if decide (uj_status dto = Some IngestionStatus.COMPLETED)
  then DocumentStatus.PROCESSED
  else DocumentStatus.FAILED.

(** Whether [update] reaches its cascade: a terminal status in the payload
    and no completed-at on the job yet. *)
Definition cascades (dto : UpdateIngestionJobDto) (J : IngestionJob.t) : bool :=
  IngestionService.terminalStatus dto
  && bool_decide (IngestionJob.completedAt J = None).

(** What the outer closure writes over the job it has read. *)
Definition running (now : Date) (J : IngestionJob.t) : IngestionJob.t :=
  IngestionJob.set_startedAt (Some now)
    (IngestionJob.set_status IngestionStatus.RUNNING J).

(** What the inner closure writes over the job object it has kept. *)
Definition completed (now : Date) (J : IngestionJob.t) : IngestionJob.t :=
  IngestionJob.set_result (Some IngestionService.sampleResult)
    (IngestionJob.set_completedAt (Some now)
       (IngestionJob.set_status IngestionStatus.COMPLETED J)).

(** An admin creates a job, then the two timers fire at [t1] and [t2]. *)
Definition createThenSimulate (dto : CreateIngestionJobDto) (user : User.t)
    (n : nat) (t1 t2 : Date) : M unit :=
  _ ← IngestionService.create dto user;
  _ ← IngestionService.fire n t1;
  IngestionService.fire n t2.

(** The job is cancelled at [t0], before the first timer fires. *)
Definition createCancelSimulate (dto : CreateIngestionJobDto) (user : User.t)
    (n : nat) (t0 t1 t2 : Date) : M unit :=
  job ← IngestionService.create dto user;
  _ ← IngestionService.cancel (IngestionJob.id job) user t0;
  _ ← IngestionService.fire n t1;
  IngestionService.fire n t2.

(** A webhook reports [running] at [t0], before the first timer fires. *)
Definition createWebhookSimulate (dto : CreateIngestionJobDto) (user : User.t)
    (n : nat) (t0 t1 : Date) : M unit :=
  job ← IngestionService.create dto user;
  _ ← IngestionService.handleWebhook (IngestionJob.id job)
        (Build_UpdateIngestionJobDto (Some IngestionStatus.RUNNING) None None) t0;
  IngestionService.fire n t1.

(** The computation ended by throwing an exception of kind [k]. *)
Definition raises {A} (r : Result A * World) (k : ErrorKind) : Prop :=
  match r.1 with
  | Throw e => kind e = k
  | Ok _ => False
  end.

(** The answer of an admin-only method to an unknown id: the role test
    comes before the lookup. *)
Definition adminOnly (user : User.t) (forbidden notFound : string) : Exception :=
  if decide (User.role user = UserRole.ADMIN)
  then NotFoundException notFound
  else ForbiddenException forbidden.

(** The same for the methods on users that also refuse the actor's own id,
    again before the lookup. *)
Definition adminOnlyNotSelf (user : User.t) (id : string)
    (forbidden self notFound : string) : Exception :=
  if decide (User.role user = UserRole.ADMIN)
  then if decide (User.id user = id)
       then ForbiddenException self
       else NotFoundException notFound
  else ForbiddenException forbidden.

(** ** Calls, events and traces *)

(** A call of a service method on behalf of an actor. *)
Inductive Operation :=
| UploadDocument (resolve : string → string) (uuid : string)
    (file : option MulterFile) (dto : CreateDocumentDto)
| FindAllDocuments
| FindDocument (id : string)
| DownloadDocument (id : string)
| UpdateDocument (id : string) (dto : UpdateDocumentDto)
| UpdateDocumentStatus (id : string) (status : DocumentStatus.t)
| RemoveDocument (id : string)
| CreateJob (dto : CreateIngestionJobDto)
| FindAllJobs
| FindJob (id : string)
| UpdateJob (id : string) (dto : UpdateIngestionJobDto)
| CancelJob (id : string)
| RemoveJob (id : string)
| UpdateUser (id : string) (dto : UpdateUserDto)
| RemoveUser (id : string)
| UpdateRole (id : string) (role : UserRole.t)
| UpdateUserStatus (id : string).

(** The world that a call leaves behind, whether it returns or throws. *)
Definition perform (op : Operation) (user : User.t) (now : Date) (w : World)
    : World :=
  match op with
  | UploadDocument resolve uuid file dto =>
      (DocumentsService.create resolve uuid file dto user w).2
  | FindAllDocuments => (DocumentsService.findAll user w).2
  | FindDocument id => (DocumentsService.findOne id user w).2
  | DownloadDocument id => (DocumentsService.downloadDocument id user w).2
  | UpdateDocument id dto => (DocumentsService.update id dto user w).2
  | UpdateDocumentStatus id status =>
      (DocumentsService.updateStatus (Some id) status user w).2
  | RemoveDocument id => (DocumentsService.remove id user w).2
  | CreateJob dto => (IngestionService.create dto user w).2
  | FindAllJobs => (IngestionService.findAll user w).2
  | FindJob id => (IngestionService.findOne id user w).2
  | UpdateJob id dto => (IngestionService.update id dto user now w).2
  | CancelJob id => (IngestionService.cancel id user now w).2
  | RemoveJob id => (IngestionService.remove id user w).2
  | UpdateUser id dto => (UsersService.update id dto user w).2
  | RemoveUser id => (UsersService.remove id user w).2
  | UpdateRole id role => (UsersService.updateRole id role user w).2
  | UpdateUserStatus id => (UsersService.updateUserStatus id user w).2
  end.

(** What can happen to the world: a call by an actor, a webhook callback
    (no actor), or a pending timer that fires. *)
Inductive Event :=
| Call (op : Operation) (user : User.t) (now : Date)
| Webhook (jobId : string) (dto : UpdateIngestionJobDto) (now : Date)
| Timer (n : nat) (now : Date).

Definition step (e : Event) (w : World) : World :=
  match e with
  | Call op user now => perform op user now w
  | Webhook jobId dto now => (IngestionService.handleWebhook jobId dto now w).2
  | Timer n now => (IngestionService.fire n now w).2
  end.

Definition exec (es : list Event) (w : World) : World :=
  foldl (λ w e, step e w) w es.

(** Every row is stored under its own id. *)
Definition well_keyed (w : World) : Prop :=
  (∀ k D, documentsRepository w !! k = Some D → Document.id D = k)
  ∧ (∀ k J, ingestionJobsRepository w !! k = Some J → IngestionJob.id J = k)
  ∧ (∀ k U, usersRepository w !! k = Some U → User.id U = k).

(** A running job has a started-at and a terminal job has a completed-at. *)
Definition stamped (J : IngestionJob.t) : Prop :=
  (IngestionJob.status J = IngestionStatus.RUNNING
   → is_Some (IngestionJob.startedAt J))
  ∧ (terminal (IngestionJob.status J) → is_Some (IngestionJob.completedAt J)).

Definition timestamps_ok (w : World) : Prop :=
  ∀ k J, ingestionJobsRepository w !! k = Some J → stamped J.

(** The job is owned, through its document, by the user with id [u]. *)
Definition jobOwnedBy (w : World) (J : IngestionJob.t) (u : string) : Prop :=
  ∃ D, documentsRepository w !! IngestionJob.documentId J = Some D
       ∧ Document.uploadedById D = u.

(** No job refers to the document with id [d]. *)
Definition unreferenced (w : World) (d : string) : Prop :=
  ∀ k J, ingestionJobsRepository w !! k = Some J → IngestionJob.documentId J ≠ d.

(** ** Decidable invariants and the shape of one event *)

#[global] Instance well_keyed_dec w : Decision (well_keyed w).
Proof.
  pose (λ (k : string) (D : Document.t), decide (Document.id D = k)).
  pose (λ (k : string) (J : IngestionJob.t), decide (IngestionJob.id J = k)).
  pose (λ (k : string) (U : User.t), decide (User.id U = k)).
  change (Decision
    (map_Forall (λ k D, Document.id D = k) (documentsRepository w)
     ∧ map_Forall (λ k J, IngestionJob.id J = k) (ingestionJobsRepository w)
     ∧ map_Forall (λ k U, User.id U = k) (usersRepository w))).
  apply _.
Defined.

#[global] Instance stamped_dec J : Decision (stamped J).
Proof. unfold stamped. apply _. Defined.

#[global] Instance timestamps_ok_dec w : Decision (timestamps_ok w).
Proof.
  pose (λ (k : string) (J : IngestionJob.t), decide (stamped J)).
  change (Decision (map_Forall (λ _ J, stamped J) (ingestionJobsRepository w))).
  apply _.
Defined.

#[global] Instance unreferenced_dec w d : Decision (unreferenced w d).
Proof.
  pose (λ (k : string) (J : IngestionJob.t), decide (IngestionJob.documentId J ≠ d)).
  change (Decision (map_Forall (λ _ J, IngestionJob.documentId J ≠ d)
                      (ingestionJobsRepository w))).
  apply _.
Defined.

(** No document is owned by the user with id [u]. *)
Definition owns_nothing (w : World) (u : string) : Prop :=
  ∀ k D, documentsRepository w !! k = Some D → Document.uploadedById D ≠ u.

#[global] Instance owns_nothing_dec w u : Decision (owns_nothing w u).
Proof.
  pose (λ (k : string) (D : Document.t), decide (Document.uploadedById D ≠ u)).
  change (Decision (map_Forall (λ _ D, Document.uploadedById D ≠ u)
                      (documentsRepository w))).
  apply _.
Defined.

(** What no event changes in a stored document. *)
Definition same_file (D D' : Document.t) : Prop :=
  Document.id D' = Document.id D
  ∧ Document.uploadedById D' = Document.uploadedById D
  ∧ Document.filename D' = Document.filename D
  ∧ Document.originalName D' = Document.originalName D
  ∧ Document.mimeType D' = Document.mimeType D
  ∧ Document.size D' = Document.size D
  ∧ Document.filePath D' = Document.filePath D.

(** What one event does to each table: nothing, one row written under its
    own id, or one row deleted. *)
Definition documents_step (w w' : World) : Prop :=
  documentsRepository w' = documentsRepository w
  ∨ (∃ D', documentsRepository w' = <[Document.id D' := D']> (documentsRepository w)
           ∧ ∀ D, documentsRepository w !! Document.id D' = Some D → same_file D D')
  ∨ (∃ k, documentsRepository w' = delete k (documentsRepository w)).

Definition jobs_step (w w' : World) : Prop :=
  ingestionJobsRepository w' = ingestionJobsRepository w
  ∨ (∃ J', ingestionJobsRepository w'
           = <[IngestionJob.id J' := J']> (ingestionJobsRepository w)
           ∧ (timestamps_ok w → stamped J'))
  ∨ (∃ k, ingestionJobsRepository w' = delete k (ingestionJobsRepository w)).

Definition users_step (w w' : World) : Prop :=
  usersRepository w' = usersRepository w
  ∨ (∃ U', usersRepository w' = <[User.id U' := U']> (usersRepository w))
  ∨ (∃ k, usersRepository w' = delete k (usersRepository w)).

(** ** Proof steps shared by the method lemmas *)

Ltac unfold_M :=
  unfold mbind, M_bind, mret, M_ret, get, modify, throw, try_catch, setTimeout in *.

Ltac step := unfold_M; simpl in *.

Ltac by_cases :=
  repeat (case_decide || case_bool_decide); simpl in *;
  try done; try tauto; try congruence; try (intuition congruence).

(** ** The first row of a table *)

Lemma firstRow_stored {A} (table : gmap string A) (x : A) :
  firstRow table = Some x → ∃ k, table !! k = Some x.
Proof.
  unfold firstRow. destruct (map_to_list table) as [|[k y] l] eqn:E; [done|].
  simpl. intros [= <-]. exists k. apply elem_of_map_to_list. rewrite E. by left.
Qed.

Lemma firstRow_None {A} (table : gmap string A) :
  firstRow table = None → table = ∅.
Proof.
  unfold firstRow. destruct (map_to_list table) as [|[k y] l] eqn:E; [|done].
  intros _. by apply map_to_list_empty_iff.
Qed.

Lemma firstRow_insert {A} (table : gmap string A) (k : string) (x : A) :
  is_Some (firstRow (<[k := x]> table)).
Proof.
  destruct (firstRow (<[k := x]> table)) eqn:E; [by eexists|].
  apply firstRow_None in E. by apply insert_non_empty in E.
Qed.

(** ** DocumentsService: method lemmas *)

Section documents_service.
Context (w : World) (D : Document.t) (user : User.t).
Hypothesis HD : stored_document w D.

(** The guard of [findOne] lets an admin through and nobody else. *)
Lemma documents_findOne_stored :
  DocumentsService.findOne (Document.id D) user w
  = (if decide (User.role user = UserRole.ADMIN)
     then Ok (LoadedDocument.load D)
     else Throw (ForbiddenException "You can only access your own documents"), w).
Proof.
  unfold DocumentsService.findOne. step. rewrite HD. simpl.
  by_cases; exfalso; intuition congruence.
Qed.

Lemma updateStatus_admin (s : DocumentStatus.t) :
  User.role user = UserRole.ADMIN →
  DocumentsService.updateStatus (Some (Document.id D)) s user w
  = (Ok (Document.set_status s D),
     set_documents <[Document.id D := Document.set_status s D]> w).
Proof.
  intros Hadm. unfold DocumentsService.updateStatus. step.
  case_decide; [done|]. step. by rewrite HD.
Qed.

End documents_service.

Lemma updateStatus_not_admin (w : World) (id : option string)
    (s : DocumentStatus.t) (user : User.t) :
  User.role user ≠ UserRole.ADMIN →
  DocumentsService.updateStatus id s user w
  = (Throw (ForbiddenException "Only admins can update document status"), w).
Proof. intros Hna. unfold DocumentsService.updateStatus. by case_decide. Qed.

(** [updateStatus] with an [id] that is [undefined]: the first row of the
    table is written, and NotFound is thrown when the table is empty. *)
Lemma updateStatus_undefined (w : World) (s : DocumentStatus.t) (user : User.t) :
  User.role user = UserRole.ADMIN →
  DocumentsService.updateStatus None s user w
  = match firstRow (documentsRepository w) with
    | Some F => (Ok (Document.set_status s F),
                 set_documents <[Document.id F := Document.set_status s F]> w)
    | None => (Throw (NotFoundException "Document not found"), w)
    end.
Proof.
  intros Hadm. unfold DocumentsService.updateStatus. step.
  case_decide; [done|]. step. by destruct (firstRow (documentsRepository w)).
Qed.

(** ** IngestionService.create *)

Lemma pendingJob_fresh (w : World) (D : Document.t) (config : option Json) :
  ingestionJobsRepository w !! IngestionJob.id (pendingJob w D config) = None.
Proof. apply not_elem_of_dom, is_fresh. Qed.

Section create.
Context (w : World) (D : Document.t) (config : option Json) (user : User.t).
Hypothesis HD : stored_document w D.

Let dto := Build_CreateIngestionJobDto (Document.id D) config.
Let J := pendingJob w D config.

Lemma create_denied :
  User.role user ≠ UserRole.ADMIN →
  IngestionService.create dto user w
  = (Throw (ForbiddenException "You can only access your own documents"), w).
Proof.
  intros Hno. unfold IngestionService.create. step.
  rewrite documents_findOne_stored by done. by case_decide.
Qed.

Lemma create_processing :
  User.role user = UserRole.ADMIN →
  Document.status D = DocumentStatus.PROCESSING →
  IngestionService.create dto user w
  = (Throw (BadRequestException "Document is already being processed"), w).
Proof.
  intros Hview Hst. unfold IngestionService.create. step.
  rewrite documents_findOne_stored by done. by_cases.
Qed.

Lemma create_admin :
  User.role user = UserRole.ADMIN →
  Document.status D ≠ DocumentStatus.PROCESSING →
  IngestionService.create dto user w
  = (Ok J,
     set_timers (enqueue (SimulateRunning (IngestionJob.id J)) 1000)
       (set_documents <[Document.id D := Document.set_status DocumentStatus.PROCESSING D]>
          (set_jobs <[IngestionJob.id J := J]> w))).
Proof.
  intros Hadm Hst. unfold IngestionService.create. step.
  rewrite documents_findOne_stored by done.
  case_decide as Hv; [|done]. simpl.
  case_decide; [done|].
  unfold IngestionService.create_and_save, IngestionService.save. step.
  fold J.
  rewrite (updateStatus_admin _ D) by done.
  unfold IngestionService.simulateIngestionProcess. by step.
Qed.

End create.

(** ** IngestionService.findOne and cancel *)

Lemma jobs_findOne_admin (w : World) (J : IngestionJob.t) (user : User.t) :
  stored_job w J →
  User.role user = UserRole.ADMIN →
  IngestionService.findOne (IngestionJob.id J) user w = (Ok (loadedJob w J), w).
Proof.
  intros HJ Hadm.
  unfold IngestionService.findOne, IngestionService.notAdminNorOwner. step.
  rewrite HJ. simpl. by case_decide.
Qed.

(** What saving a loaded job writes, for the two methods that do it. *)
Lemma store_cancelled (J : IngestionJob.t) (d : option Document.t) (now : Date) :
  LoadedJob.store
    (LoadedJob.set_completedAt (Some now)
       (LoadedJob.set_status IngestionStatus.CANCELLED (LoadedJob.load J d))) J
  = cancelled now J.
Proof. done. Qed.

Lemma saveLoaded_stored (w : World) (J : IngestionJob.t)
    (f : IngestionJob.t → IngestionJob.t) :
  stored_job w J →
  set_jobs (alter f (IngestionJob.id J)) w
  = set_jobs <[IngestionJob.id J := f J]> w.
Proof. intros HJ. unfold set_jobs. by rewrite (alter_alt_Some _ _ _ J). Qed.

Section job_and_document.
Context (w : World) (J : IngestionJob.t) (D : Document.t) (user : User.t).
Hypothesis HJ : stored_job w J.
Hypothesis HD : stored_document w D.
Hypothesis HJD : IngestionJob.documentId J = Document.id D.

Lemma jobs_findOne_stored :
  IngestionService.findOne (IngestionJob.id J) user w
  = (if decide (canView user D) then Ok (LoadedJob.load J (Some D))
     else Throw (ForbiddenException "You can only access jobs for your own documents"),
     w).
Proof.
  unfold IngestionService.findOne, IngestionService.notAdminNorOwner,
    IngestionService.notOwner, canView.
  step. rewrite HJ. simpl. rewrite HJD, HD. simpl.
  by_cases; exfalso; intuition congruence.
Qed.

Lemma cancel_denied (now : Date) :
  ¬ canView user D →
  IngestionService.cancel (IngestionJob.id J) user now w
  = (Throw (ForbiddenException "You can only access jobs for your own documents"), w).
Proof.
  intros Hno. unfold IngestionService.cancel. step.
  rewrite jobs_findOne_stored. by case_decide.
Qed.

Lemma cancel_rejected (now : Date) :
  canView user D →
  IngestionJob.status J = IngestionStatus.COMPLETED
  ∨ IngestionJob.status J = IngestionStatus.FAILED →
  IngestionService.cancel (IngestionJob.id J) user now w
  = (Throw (BadRequestException "Cannot cancel a completed or failed job"), w).
Proof.
  intros Hview Hst. unfold IngestionService.cancel. step.
  rewrite jobs_findOne_stored. by_cases.
Qed.

Lemma cancel_owner (now : Date) :
  User.role user ≠ UserRole.ADMIN →
  User.id user = Document.uploadedById D →
  IngestionJob.status J ≠ IngestionStatus.COMPLETED →
  IngestionJob.status J ≠ IngestionStatus.FAILED →
  IngestionService.cancel (IngestionJob.id J) user now w
  = (Throw (ForbiddenException "Only admins can update document status"),
     set_jobs <[IngestionJob.id J := cancelled now J]> w).
Proof.
  intros Hna Hown Hc Hf. unfold IngestionService.cancel. step.
  rewrite jobs_findOne_stored.
  case_decide as Hv; [|exfalso; apply Hv; by right]. simpl.
  case_decide; [tauto|].
  unfold IngestionService.notAdminNorOwner, IngestionService.notOwner. step.
  case_decide; [|done]. step.
  case_bool_decide; [congruence|]. step.
  rewrite (saveLoaded_stored w J) by done. rewrite store_cancelled.
  by rewrite updateStatus_not_admin.
Qed.

End job_and_document.

(** An admin's [cancel] needs no document for the job; the document that
    it resets is the first row of the documents table. *)
Lemma cancel_admin (w : World) (J : IngestionJob.t) (user : User.t) (now : Date) :
  stored_job w J →
  User.role user = UserRole.ADMIN →
  IngestionJob.status J ≠ IngestionStatus.COMPLETED →
  IngestionJob.status J ≠ IngestionStatus.FAILED →
  let w' := set_jobs <[IngestionJob.id J := cancelled now J]> w in
  IngestionService.cancel (IngestionJob.id J) user now w
  = match firstRow (documentsRepository w) with
    | Some F =>
        (Ok (LoadedJob.load (cancelled now J)
               (documentsRepository w !! IngestionJob.documentId J)),
         set_documents
           <[Document.id F := Document.set_status DocumentStatus.UPLOADED F]> w')
    | None => (Throw (NotFoundException "Document not found"), w')
    end.
Proof.
  intros HJ Hadm Hc Hf. simpl. unfold IngestionService.cancel. step.
  rewrite jobs_findOne_admin by done. simpl.
  case_decide; [tauto|].
  unfold IngestionService.notAdminNorOwner. step.
  case_decide; [done|]. step.
  unfold loadedJob.
  rewrite (saveLoaded_stored w J) by done. rewrite store_cancelled.
  rewrite updateStatus_undefined by done. simpl.
  by destruct (firstRow (documentsRepository w)).
Qed.

(** ** The field merge of update and handleWebhook *)

Ltac unfold_merge :=
  unfold merged, IngestionService.stampStarted, IngestionService.assign,
    IngestionService.terminalStatus, IngestionStatus.includes in *.

Section merged.
Context (dto : UpdateIngestionJobDto) (now : Date) (J : IngestionJob.t).

Lemma merged_id : IngestionJob.id (merged dto now J) = IngestionJob.id J.
Proof. unfold_merge. destruct dto as [[s|] [e|] [r|]]; simpl; by_cases. Qed.

Lemma merged_documentId :
  IngestionJob.documentId (merged dto now J) = IngestionJob.documentId J.
Proof. unfold_merge. destruct dto as [[s|] [e|] [r|]]; simpl; by_cases. Qed.

Lemma merged_config : IngestionJob.config (merged dto now J) = IngestionJob.config J.
Proof. unfold_merge. destruct dto as [[s|] [e|] [r|]]; simpl; by_cases. Qed.

Lemma merged_status :
  IngestionJob.status (merged dto now J)
  = default (IngestionJob.status J) (uj_status dto).
Proof. unfold_merge. destruct dto as [[s|] [e|] [r|]]; simpl; by_cases. Qed.

(** A started-at that is set survives the merge. *)
Lemma merged_startedAt_kept (t : Date) :
  IngestionJob.startedAt J = Some t →
  IngestionJob.startedAt (merged dto now J) = Some t.
Proof.
  intros Ht. unfold_merge.
  destruct dto as [[s|] [e|] [r|]]; simpl in *; by_cases.
Qed.

(** A completed-at that is set survives the merge. *)
Lemma merged_completedAt_kept (t : Date) :
  IngestionJob.completedAt J = Some t →
  IngestionJob.completedAt (merged dto now J) = Some t.
Proof.
  intros Ht. unfold_merge.
  destruct dto as [[s|] [e|] [r|]]; simpl in *; by_cases.
Qed.

(** The merge on the loaded job is the merge on the row. *)
Lemma merged_loaded (d : option Document.t) :
  let job := IngestionService.stampStartedLoaded dto now
               (IngestionService.assignLoaded dto (LoadedJob.load J d)) in
  LoadedJob.completedAt job = IngestionJob.completedAt J
  ∧ (if cascades dto J then LoadedJob.set_completedAt (Some now) job else job)
    = LoadedJob.load (merged dto now J) d.
Proof.
  destruct J as [i s e r c [sa|] [ca|] di], dto as [[s'|] [e'|] [r'|]].
  all: cbv beta iota zeta delta
    [merged cascades IngestionService.stampStarted IngestionService.assign
     IngestionService.stampStartedLoaded IngestionService.assignLoaded
     LoadedJob.load
     from_option default uj_status uj_errorMessage uj_result
     IngestionJob.set_status IngestionJob.set_errorMessage
     IngestionJob.set_result IngestionJob.set_startedAt
     IngestionJob.set_completedAt IngestionJob.id IngestionJob.status
     IngestionJob.errorMessage IngestionJob.result IngestionJob.config
     IngestionJob.startedAt IngestionJob.completedAt IngestionJob.documentId
     LoadedJob.set_status LoadedJob.set_errorMessage
     LoadedJob.set_result LoadedJob.set_startedAt
     LoadedJob.set_completedAt LoadedJob.id LoadedJob.status
     LoadedJob.errorMessage LoadedJob.result LoadedJob.config
     LoadedJob.startedAt LoadedJob.completedAt LoadedJob.documentId
     LoadedJob.document].
  all: repeat (case_decide || case_bool_decide).
  all: try destruct (IngestionService.terminalStatus _).
  all: cbn [andb].
  all: try (split; reflexivity).
  all: exfalso; intuition congruence.
Qed.

Lemma store_merged (d : option Document.t) :
  LoadedJob.store (LoadedJob.load (merged dto now J) d) J = merged dto now J.
Proof.
  pose proof merged_id as Hi. pose proof merged_documentId as Hd.
  destruct (merged dto now J) as [i s e r c sa ca di]. simpl in *.
  unfold LoadedJob.store. simpl. congruence.
Qed.

End merged.

Lemma handleWebhook_stored (w : World) (J : IngestionJob.t)
    (dto : UpdateIngestionJobDto) (now : Date) :
  stored_job w J →
  IngestionService.handleWebhook (IngestionJob.id J) dto now w
  = (Ok (merged dto now J),
     set_jobs <[IngestionJob.id J := merged dto now J]> w).
Proof.
  intros HJ. unfold IngestionService.handleWebhook, IngestionService.save.
  step. rewrite HJ. step. fold (merged dto now J). by rewrite merged_id.
Qed.

Lemma handleWebhook_unknown (w : World) (id : string)
    (dto : UpdateIngestionJobDto) (now : Date) :
  ingestionJobsRepository w !! id = None →
  IngestionService.handleWebhook id dto now w
  = (Throw (NotFoundException "Ingestion job not found"), w).
Proof.
  intros Hno. unfold IngestionService.handleWebhook. step. by rewrite Hno.
Qed.

(** An admin's [update]: when the cascade is reached, the document that is
    written is the first row of the documents table, and with an empty
    table the call throws before the job is saved. *)
Lemma update_admin (w : World) (J : IngestionJob.t)
    (dto : UpdateIngestionJobDto) (user : User.t) (now : Date) :
  stored_job w J →
  User.role user = UserRole.ADMIN →
  let saved :=
    Ok (LoadedJob.load (merged dto now J)
          (documentsRepository w !! IngestionJob.documentId J)) in
  IngestionService.update (IngestionJob.id J) dto user now w
  = if cascades dto J
    then match firstRow (documentsRepository w) with
         | Some F =>
             (saved,
              set_jobs <[IngestionJob.id J := merged dto now J]>
                (set_documents
                   <[Document.id F := Document.set_status (cascaded dto) F]> w))
         | None => (Throw (NotFoundException "Document not found"), w)
         end
    else (saved, set_jobs <[IngestionJob.id J := merged dto now J]> w).
Proof.
  intros HJ Hadm. cbv zeta. unfold IngestionService.update.
  unfold mbind, M_bind at 1. rewrite jobs_findOne_admin by done.
  cbv beta iota. case_decide; [done|]. unfold loadedJob.
  set (d := documentsRepository w !! IngestionJob.documentId J).
  destruct (merged_loaded dto now J d) as [Hc Hm]. cbv zeta in Hc, Hm.
  set (job := IngestionService.stampStartedLoaded dto now _) in *.
  rewrite Hc. fold (cascades dto J).
  destruct (cascades dto J) eqn:Hcas.
  - cbv zeta. rewrite Hm. cbn [LoadedJob.documentId LoadedJob.load].
    unfold mbind, M_bind. rewrite updateStatus_undefined by done.
    fold (cascaded dto).
    destruct (firstRow (documentsRepository w)) as [F|]; [|done].
    unfold mret, M_ret.
    unfold IngestionService.saveLoaded, mbind, M_bind, modify, mret, M_ret.
    cbn [LoadedJob.id LoadedJob.load]. rewrite merged_id.
    rewrite (saveLoaded_stored _ J) by done.
    by rewrite store_merged.
  - unfold mbind, M_bind, mret, M_ret. rewrite Hm.
    unfold IngestionService.saveLoaded, mbind, M_bind, modify, mret, M_ret.
    cbn [LoadedJob.id LoadedJob.load]. rewrite merged_id.
    rewrite (saveLoaded_stored _ J) by done.
    by rewrite store_merged.
Qed.

(** ** The simulated processor *)

Lemma lookup_enqueue (cb : Callback) (ms : Z) (ts : list Timeout) :
  enqueue cb ms ts !! length ts = Some (Build_Timeout cb ms).
Proof. unfold enqueue. by rewrite list_lookup_middle. Qed.

Lemma delete_enqueue (cb : Callback) (ms : Z) (ts : list Timeout) :
  delete (length ts) (enqueue cb ms ts) = ts.
Proof. unfold enqueue. by rewrite delete_middle, app_nil_r. Qed.

Section fire.
Context (w : World) (n : nat) (ms : Z) (now : Date).

(** The outer closure: whatever the status and the started-at of the job
    are when the timer fires, they are overwritten. *)
Lemma fire_running (J : IngestionJob.t) :
  timers w !! n = Some (Build_Timeout (SimulateRunning (IngestionJob.id J)) ms) →
  stored_job w J →
  IngestionService.fire n now w
  = (Ok (),
     set_timers (enqueue (SimulateCompleted (running now J)) 5000)
       (set_jobs <[IngestionJob.id J := running now J]>
          (set_timers (delete n) w))).
Proof.
  intros Ht HJ. unfold IngestionService.fire. rewrite Ht. simpl.
  unfold IngestionService.save. step. by rewrite HJ.
Qed.

(** The outer closure finds no row: nothing is written, nothing scheduled. *)
Lemma fire_running_missing (jobId : string) :
  timers w !! n = Some (Build_Timeout (SimulateRunning jobId) ms) →
  ingestionJobsRepository w !! jobId = None →
  IngestionService.fire n now w = (Ok (), set_timers (delete n) w).
Proof.
  intros Ht HJ. unfold IngestionService.fire. rewrite Ht. simpl.
  step. by rewrite HJ.
Qed.

(** The inner closure does not read the repository at all. *)
Lemma fire_completed (J : IngestionJob.t) :
  timers w !! n = Some (Build_Timeout (SimulateCompleted J) ms) →
  IngestionService.fire n now w
  = (Ok (),
     set_jobs <[IngestionJob.id J := completed now J]>
       (set_timers (delete n) w)).
Proof.
  intros Ht. unfold IngestionService.fire. rewrite Ht. simpl.
  unfold IngestionService.save. by step.
Qed.

End fire.

(** Sequencing of computations whose first part is known. *)
Lemma bind_ok {A B} (m : M A) (f : A → M B) (w w' : World) (a : A) :
  m w = (Ok a, w') → (m ≫= f) w = f a w'.
Proof. intros H. unfold mbind, M_bind. by rewrite H. Qed.

(** ** Scenarios of the engine *)

(** A pending job is cancelled by an admin before its first timer fires.
    [F] is the document that the store returns first when [cancel] resets
    a document. *)
Lemma cancelThenSimulate_world (w : World) (J : IngestionJob.t) (user : User.t)
    (ts : list Timeout) (t0 t1 t2 : Date) (F : Document.t) :
  stored_job w J →
  User.role user = UserRole.ADMIN →
  IngestionJob.status J = IngestionStatus.PENDING →
  timers w = enqueue (SimulateRunning (IngestionJob.id J)) 1000 ts →
  firstRow (documentsRepository w) = Some F →
  (_ ← IngestionService.cancel (IngestionJob.id J) user t0;
   _ ← IngestionService.fire (length ts) t1;
   IngestionService.fire (length ts) t2) w
  = (Ok (),
     mkWorld (usersRepository w)
       (<[Document.id F := Document.set_status DocumentStatus.UPLOADED F]>
          (documentsRepository w))
       (<[IngestionJob.id J := completed t2 (running t1 (cancelled t0 J))]>
          (ingestionJobsRepository w))
       (uploads w) ts).
Proof.
  intros HJ Hadm Hst Hts HF.
  assert (HC := cancel_admin w J user t0 HJ Hadm).
  rewrite Hst in HC. specialize (HC ltac:(discriminate) ltac:(discriminate)).
  cbv zeta in HC. rewrite HF in HC.
  rewrite (bind_ok _ _ w _ _ HC).
  set (w2 := set_documents _ _).
  assert (HJ2 : stored_job w2 (cancelled t0 J)) by apply lookup_insert_eq.
  assert (HT2 : timers w2 !! length ts
                = Some (Build_Timeout (SimulateRunning (IngestionJob.id (cancelled t0 J))) 1000)).
  { unfold w2. cbn [set_documents set_jobs timers]. rewrite Hts. apply lookup_enqueue. }
  rewrite (bind_ok _ _ w2 _ _ (fire_running w2 _ 1000 t1 (cancelled t0 J) HT2 HJ2)).
  set (w3 := set_timers _ _).
  assert (HT3 : timers w3 !! length ts
                = Some (Build_Timeout (SimulateCompleted (running t1 (cancelled t0 J))) 5000)).
  { unfold w3, w2, set_jobs, set_timers, set_documents.
    cbn [usersRepository documentsRepository ingestionJobsRepository uploads timers].
    rewrite Hts, delete_enqueue. apply lookup_enqueue. }
  rewrite (fire_completed w3 _ 5000 t2 (running t1 (cancelled t0 J)) HT3).
  unfold w3, w2, set_jobs, set_timers, set_documents.
  cbn [usersRepository documentsRepository ingestionJobsRepository uploads timers].
  rewrite Hts, !delete_enqueue.
  do 2 f_equal.
  change (IngestionJob.id (running t1 (cancelled t0 J))) with (IngestionJob.id J).
  change (IngestionJob.id (cancelled t0 J)) with (IngestionJob.id J).
  by rewrite !insert_insert_eq.
Qed.

Section scenarios.
Context (w : World) (D : Document.t) (config : option Json) (user : User.t).
Hypothesis HD : stored_document w D.
Hypothesis Hst : Document.status D ≠ DocumentStatus.PROCESSING.
Hypothesis Hadm : User.role user = UserRole.ADMIN.

Let dto := Build_CreateIngestionJobDto (Document.id D) config.
Let J := pendingJob w D config.
Let n := length (timers w).

Lemma createThenSimulate_world (t1 t2 : Date) :
  createThenSimulate dto user n t1 t2 w
  = (Ok (),
     mkWorld (usersRepository w)
       (<[Document.id D := Document.set_status DocumentStatus.PROCESSING D]>
          (documentsRepository w))
       (<[IngestionJob.id J := completed t2 (running t1 J)]>
          (ingestionJobsRepository w))
       (uploads w) (timers w)).
Proof.
  unfold createThenSimulate, n.
  erewrite bind_ok by (by apply create_admin).
  erewrite bind_ok.
  2:{ apply (fire_running _ _ 1000 _ J); simpl.
      - apply lookup_enqueue.
      - unfold stored_job. simpl. apply lookup_insert_eq. }
  erewrite (fire_completed _ _ 5000 _ (running t1 J)).
  2:{ simpl. rewrite delete_enqueue. apply lookup_enqueue. }
  unfold set_jobs, set_timers, set_documents. simpl.
  rewrite !delete_enqueue.
  do 2 f_equal. by rewrite !insert_insert_eq.
Qed.

Lemma createCancelSimulate_world (t0 t1 t2 : Date) (F : Document.t) :
  firstRow (<[Document.id D := Document.set_status DocumentStatus.PROCESSING D]>
              (documentsRepository w)) = Some F →
  createCancelSimulate dto user n t0 t1 t2 w
  = (Ok (),
     mkWorld (usersRepository w)
       (<[Document.id F := Document.set_status DocumentStatus.UPLOADED F]>
          (<[Document.id D := Document.set_status DocumentStatus.PROCESSING D]>
             (documentsRepository w)))
       (<[IngestionJob.id J := completed t2 (running t1 (cancelled t0 J))]>
          (ingestionJobsRepository w))
       (uploads w) (timers w)).
Proof.
  intros HF. unfold createCancelSimulate, n.
  rewrite (bind_ok _ _ w _ _ (create_admin w D config user HD Hadm Hst)).
  fold J.
  assert (Hs : IngestionJob.status J = IngestionStatus.PENDING) by reflexivity.
  clearbody J.
  set (w1 := set_timers _ _).
  rewrite (cancelThenSimulate_world w1 J user (timers w) t0 t1 t2 F);
    try done.
  - unfold w1, set_jobs, set_timers, set_documents.
    cbn [usersRepository documentsRepository ingestionJobsRepository uploads timers].
    by rewrite insert_insert_eq.
  - apply lookup_insert_eq.
Qed.
Let reportRunning :=
  Build_UpdateIngestionJobDto (Some IngestionStatus.RUNNING) None None.

Lemma createWebhookSimulate_world (t0 t1 : Date) :
  createWebhookSimulate dto user n t0 t1 w
  = (Ok (),
     mkWorld (usersRepository w)
       (<[Document.id D := Document.set_status DocumentStatus.PROCESSING D]>
          (documentsRepository w))
       (<[IngestionJob.id J := running t1 (merged reportRunning t0 J)]>
          (ingestionJobsRepository w))
       (uploads w)
       (enqueue (SimulateCompleted (running t1 (merged reportRunning t0 J))) 5000
          (timers w))).
Proof.
  unfold createWebhookSimulate, n.
  erewrite bind_ok by (by apply create_admin).
  erewrite bind_ok.
  2:{ apply (handleWebhook_stored _ J). unfold stored_job. simpl.
      apply lookup_insert_eq. }
  erewrite (fire_running _ _ 1000 _ (merged reportRunning t0 J)).
  2:{ simpl. apply lookup_enqueue. }
  2:{ unfold stored_job. simpl. apply lookup_insert_eq. }
  unfold set_jobs, set_timers, set_documents. simpl.
  rewrite !delete_enqueue.
  do 2 f_equal. by rewrite !insert_insert_eq.
Qed.

End scenarios.

(** ** Terminal jobs under cancel, update and handleWebhook *)

Lemma terminal_cases (s : IngestionStatus.t) :
  terminal s ↔ s = IngestionStatus.COMPLETED ∨ s = IngestionStatus.FAILED
               ∨ s = IngestionStatus.CANCELLED.
Proof.
  unfold terminal, IngestionStatus.terminal.
  rewrite !elem_of_cons, elem_of_nil. tauto.
Qed.

Ltac unfold_services :=
  unfold IngestionService.cancel, IngestionService.update,
    IngestionService.findOne, IngestionService.notAdminNorOwner,
    IngestionService.notOwner, IngestionService.save,
    IngestionService.saveLoaded,
    DocumentsService.updateStatus, findOneWhere in *.

Ltac all_cases :=
  repeat (first
    [ case_decide | case_bool_decide
    | match goal with
      | |- context [match ?x with Some _ => _ | None => _ end] => destruct x eqn:?
      end ];
    simplify_eq; simpl in * ).

(** [cancel] on a terminal job, whoever calls it and whether or not the
    document is there: the status stored for the job stays what it was. *)
Lemma cancel_keeps_terminal_status (w : World) (J : IngestionJob.t)
    (user : User.t) (now : Date) :
  stored_job w J →
  terminal (IngestionJob.status J) →
  jobStatus (IngestionService.cancel (IngestionJob.id J) user now w).2
    (IngestionJob.id J)
  = Some (IngestionJob.status J).
Proof.
  intros HJ [Hs|[Hs|Hs]]%terminal_cases; unfold jobStatus;
    unfold_services; step; rewrite HJ; step; all_cases;
    rewrite ?lookup_alter_eq, ?HJ; simpl;
    try done; try congruence; try (intuition congruence).
Qed.

(** [cancel] on a completed or failed job writes nothing and throws. *)
Lemma cancel_completed_or_failed (w : World) (J : IngestionJob.t)
    (user : User.t) (now : Date) :
  stored_job w J →
  IngestionJob.status J = IngestionStatus.COMPLETED
  ∨ IngestionJob.status J = IngestionStatus.FAILED →
  ∃ e, IngestionService.cancel (IngestionJob.id J) user now w = (Throw e, w).
Proof.
  intros HJ Hs. unfold_services. step. rewrite HJ. step.
  all_cases; eauto; tauto.
Qed.

(** [update] by an actor who is not an admin throws and writes nothing. *)
Lemma update_not_admin_throws (w : World) (id : string)
    (dto : UpdateIngestionJobDto) (user : User.t) (now : Date) :
  User.role user ≠ UserRole.ADMIN →
  ∃ e, IngestionService.update id dto user now w = (Throw e, w).
Proof.
  intros Hna. unfold IngestionService.update, IngestionService.findOne,
    IngestionService.notAdminNorOwner, IngestionService.notOwner. step.
  destruct (decide (User.role user ≠ UserRole.ADMIN)); [|done].
  destruct (ingestionJobsRepository w !! id) as [J|]; simpl; [|by eexists].
  destruct (documentsRepository w !! IngestionJob.documentId J); simpl;
    [|by eexists].
  case_bool_decide; simpl; by eexists.
Qed.

(** [update] either throws and writes nothing, or saves the merged job. *)
Lemma update_cases (w : World) (J : IngestionJob.t)
    (dto : UpdateIngestionJobDto) (user : User.t) (now : Date) :
  stored_job w J →
  let r := IngestionService.update (IngestionJob.id J) dto user now w in
  match r.1 with
  | Ok J' =>
      J' = LoadedJob.load (merged dto now J)
             (documentsRepository w !! IngestionJob.documentId J)
      ∧ ingestionJobsRepository r.2
        = <[IngestionJob.id J := merged dto now J]> (ingestionJobsRepository w)
      ∧ User.role user = UserRole.ADMIN
  | Throw _ => r.2 = w
  end.
Proof.
  intros HJ. cbv zeta.
  destruct (decide (User.role user = UserRole.ADMIN)) as [Hadm|Hna].
  - rewrite (update_admin w J dto user now) by done.
    destruct (cascades dto J); [destruct (firstRow (documentsRepository w))|];
      done.
  - destruct (update_not_admin_throws w (IngestionJob.id J) dto user now Hna)
      as [e ->]. done.
Qed.

(** The first two steps of the same scenario. *)
Lemma cancel_and_running (w : World) (J : IngestionJob.t) (user : User.t)
    (ts : list Timeout) (t0 t1 : Date) (F : Document.t) :
  stored_job w J →
  User.role user = UserRole.ADMIN →
  IngestionJob.status J = IngestionStatus.PENDING →
  timers w = enqueue (SimulateRunning (IngestionJob.id J)) 1000 ts →
  firstRow (documentsRepository w) = Some F →
  jobStatus (IngestionService.cancel (IngestionJob.id J) user t0 w).2
    (IngestionJob.id J)
  = Some IngestionStatus.CANCELLED
  ∧ jobStatus
      ((_ ← IngestionService.cancel (IngestionJob.id J) user t0;
        IngestionService.fire (length ts) t1) w).2
      (IngestionJob.id J)
    = Some IngestionStatus.RUNNING.
Proof.
  intros HJ Hadm Hst Hts HF.
  assert (HC := cancel_admin w J user t0 HJ Hadm).
  rewrite Hst in HC. specialize (HC ltac:(discriminate) ltac:(discriminate)).
  cbv zeta in HC. rewrite HF in HC.
  rewrite (bind_ok _ _ w _ _ HC), HC.
  set (w2 := set_documents _ _).
  assert (HJ2 : stored_job w2 (cancelled t0 J)) by apply lookup_insert_eq.
  assert (HT2 : timers w2 !! length ts
                = Some (Build_Timeout (SimulateRunning (IngestionJob.id (cancelled t0 J))) 1000)).
  { unfold w2. cbn [set_documents set_jobs timers]. rewrite Hts. apply lookup_enqueue. }
  rewrite (fire_running w2 _ 1000 t1 (cancelled t0 J) HT2 HJ2).
  unfold jobStatus, w2, set_jobs, set_timers, set_documents.
  cbn [snd usersRepository documentsRepository ingestionJobsRepository uploads timers].
  change (IngestionJob.id (cancelled t0 J)) with (IngestionJob.id J).
  by rewrite !lookup_insert_eq.
Qed.

(** * The claims *)

(** ** Creating a job *)

(** C1.  The claim says that [create] succeeds for every actor who may view
    the document, admin or not, and leaves the job [pending] and the
    document [processing].  For the owner of the document who is not an
    admin the code does something else: [create] loads the document through
    [DocumentsService.findOne], whose [select] leaves out [uploadedById], so
    that the guard compares [undefined] with the id of the actor and
    refuses the owner.  [create] throws Forbidden, no job is written, the
    document keeps its status and no timer is scheduled. *)
Theorem create_by_owner_who_is_not_admin (w : World) (D : Document.t)
    (config : option Json) (user : User.t) :
  stored_document w D →
  Document.status D ≠ DocumentStatus.PROCESSING →
  User.role user ≠ UserRole.ADMIN →
  User.id user = Document.uploadedById D →
  let r := IngestionService.create
             (Build_CreateIngestionJobDto (Document.id D) config) user w in
  r.1 = Throw (ForbiddenException "You can only access your own documents")
  ∧ r.2 = w
  ∧ ingestionJobsRepository r.2 = ingestionJobsRepository w
  ∧ documentStatus r.2 (Document.id D) = Some (Document.status D)
  ∧ timers r.2 = timers w.
Proof.
  intros HD Hst Hna Hown. simpl.
  rewrite (create_denied w D config user) by done. simpl.
  unfold documentStatus. by rewrite HD.
Qed.

Lemma create_by_owner_who_is_not_admin_witness :
  let w := Fixtures.world0 DocumentStatus.UPLOADED in
  let D := Fixtures.doc DocumentStatus.UPLOADED in
  let r := IngestionService.create
             (Build_CreateIngestionJobDto (Document.id D) None) Fixtures.editor w in
  r.1 = Throw (ForbiddenException "You can only access your own documents")
  ∧ r.2 = w
  ∧ ingestionJobsRepository r.2 = ingestionJobsRepository w
  ∧ documentStatus r.2 (Document.id D) = Some (Document.status D)
  ∧ timers r.2 = timers w.
Proof.
  apply (create_by_owner_who_is_not_admin
           (Fixtures.world0 DocumentStatus.UPLOADED)
           (Fixtures.doc DocumentStatus.UPLOADED) None Fixtures.editor).
  - reflexivity.
  - simpl. discriminate.
  - simpl. discriminate.
  - reflexivity.
Defined.

(** What the claim asks for does hold for an admin. *)
Lemma create_by_admin (w : World) (D : Document.t) (config : option Json)
    (user : User.t) :
  stored_document w D →
  Document.status D ≠ DocumentStatus.PROCESSING →
  User.role user = UserRole.ADMIN →
  let r := IngestionService.create
             (Build_CreateIngestionJobDto (Document.id D) config) user w in
  let J := pendingJob w D config in
  r.1 = Ok J
  ∧ IngestionJob.status J = IngestionStatus.PENDING
  ∧ IngestionJob.startedAt J = None
  ∧ ingestionJobsRepository r.2 !! IngestionJob.id J = Some J
  ∧ documentStatus r.2 (Document.id D) = Some DocumentStatus.PROCESSING.
Proof.
  intros HD Hst Hadm. simpl.
  rewrite (create_admin w D config user) by done. unfold documentStatus. simpl.
  by rewrite !lookup_insert_eq.
Qed.

(** C7, as the code has it.  [create] loads the document through
    [DocumentsService.findOne] before it looks at the status.  On a
    [processing] document an admin gets BadRequest, and an actor who is
    neither an admin nor the owner of the document gets Forbidden; nothing
    is written in either case. *)
Theorem create_on_processing_document (w : World) (D : Document.t)
    (config : option Json) (user : User.t) :
  stored_document w D →
  Document.status D = DocumentStatus.PROCESSING →
  let r := IngestionService.create
             (Build_CreateIngestionJobDto (Document.id D) config) user w in
  (User.role user = UserRole.ADMIN →
   r = (Throw (BadRequestException "Document is already being processed"), w))
  ∧ (User.role user ≠ UserRole.ADMIN →
     User.id user ≠ Document.uploadedById D →
     r = (Throw (ForbiddenException "You can only access your own documents"), w)).
Proof.
  intros HD Hst. cbv zeta. split.
  - intros Hadm. by apply (create_processing w D config user).
  - intros Hna _. by apply (create_denied w D config user).
Qed.

Lemma create_on_processing_document_witness :
  let w := Fixtures.world0 DocumentStatus.PROCESSING in
  let D := Fixtures.doc DocumentStatus.PROCESSING in
  let user := Fixtures.admin in
  let r := IngestionService.create
             (Build_CreateIngestionJobDto (Document.id D) (Some (JObject []))) user w in
  (User.role user = UserRole.ADMIN →
   r = (Throw (BadRequestException "Document is already being processed"), w))
  ∧ (User.role user ≠ UserRole.ADMIN →
     User.id user ≠ Document.uploadedById D →
     r = (Throw (ForbiddenException "You can only access your own documents"), w)).
Proof.
  apply (create_on_processing_document
           (Fixtures.world0 DocumentStatus.PROCESSING)
           (Fixtures.doc DocumentStatus.PROCESSING) (Some (JObject []))
           Fixtures.admin).
  - reflexivity.
  - reflexivity.
Defined.

(** C7 as stated fails: the viewer, who neither owns the processing
    document nor is an admin, gets Forbidden and not BadRequest. *)
Lemma stranger_gets_forbidden_on_processing_document :
  let w := Fixtures.world0 DocumentStatus.PROCESSING in
  let r := IngestionService.create (Build_CreateIngestionJobDto "d1" None)
             Fixtures.viewer w in
  documentStatus w "d1" = Some DocumentStatus.PROCESSING
  ∧ r.1 = Throw (ForbiddenException "You can only access your own documents")
  ∧ ¬ raises r BadRequest.
Proof. vm_compute. split_and!; [done | done | discriminate]. Qed.

(** ** Cancelling a job *)

(** C2.  The claim says that [cancel] by the document's owner, as by an
    admin, sets the job to [cancelled] and reverts the document to
    [uploaded].  For an owner who is not an admin the code saves the
    cancelled job and then [updateStatus] refuses the actor: [cancel] throws
    Forbidden and the documents table is left as it was. *)
Theorem cancel_by_owner_who_is_not_admin (w : World) (J : IngestionJob.t)
    (D : Document.t) (user : User.t) (now : Date) :
  stored_job w J →
  stored_document w D →
  IngestionJob.documentId J = Document.id D →
  User.role user ≠ UserRole.ADMIN →
  User.id user = Document.uploadedById D →
  IngestionJob.status J = IngestionStatus.PENDING
  ∨ IngestionJob.status J = IngestionStatus.RUNNING →
  let r := IngestionService.cancel (IngestionJob.id J) user now w in
  r.1 = Throw (ForbiddenException "Only admins can update document status")
  ∧ ingestionJobsRepository r.2 !! IngestionJob.id J = Some (cancelled now J)
  ∧ documentsRepository r.2 = documentsRepository w
  ∧ documentStatus r.2 (Document.id D) = Some (Document.status D).
Proof.
  intros HJ HD HJD Hna Hown Hst. simpl.
  rewrite (cancel_owner w J D user) by (try done; intros ?; intuition congruence).
  unfold documentStatus. simpl. rewrite HD. split_and!; try done.
  apply lookup_insert_eq.
Qed.

Lemma cancel_by_owner_who_is_not_admin_witness :
  let J := Fixtures.job IngestionStatus.PENDING None None in
  let D := Fixtures.doc DocumentStatus.PROCESSING in
  let w := Fixtures.world1 DocumentStatus.PROCESSING J in
  let r := IngestionService.cancel (IngestionJob.id J) Fixtures.editor 7000 w in
  r.1 = Throw (ForbiddenException "Only admins can update document status")
  ∧ ingestionJobsRepository r.2 !! IngestionJob.id J = Some (cancelled 7000 J)
  ∧ documentsRepository r.2 = documentsRepository w
  ∧ documentStatus r.2 (Document.id D) = Some (Document.status D).
Proof.
  apply (cancel_by_owner_who_is_not_admin
           (Fixtures.world1 DocumentStatus.PROCESSING
              (Fixtures.job IngestionStatus.PENDING None None))
           (Fixtures.job IngestionStatus.PENDING None None)
           (Fixtures.doc DocumentStatus.PROCESSING) Fixtures.editor 7000).
  - reflexivity.
  - reflexivity.
  - reflexivity.
  - simpl. discriminate.
  - reflexivity.
  - left. reflexivity.
Defined.

(** The rest of C2: a completed or failed job is refused with BadRequest
    for the admin and for the owner.  An admin's cancel does what the claim
    lists for the job; the document that it resets is the first row of the
    documents table, because the job that [findOne] has loaded carries no
    [documentId]. *)
Lemma cancel_completed_or_failed_rejected (w : World) (J : IngestionJob.t)
    (D : Document.t) (user : User.t) (now : Date) :
  stored_job w J →
  stored_document w D →
  IngestionJob.documentId J = Document.id D →
  User.role user = UserRole.ADMIN ∨ User.id user = Document.uploadedById D →
  IngestionJob.status J = IngestionStatus.COMPLETED
  ∨ IngestionJob.status J = IngestionStatus.FAILED →
  IngestionService.cancel (IngestionJob.id J) user now w
  = (Throw (BadRequestException "Cannot cancel a completed or failed job"), w).
Proof. intros. by apply (cancel_rejected w J D user). Qed.

Lemma cancel_by_admin (w : World) (J : IngestionJob.t) (F : Document.t)
    (user : User.t) (now : Date) :
  stored_job w J →
  User.role user = UserRole.ADMIN →
  IngestionJob.status J = IngestionStatus.PENDING
  ∨ IngestionJob.status J = IngestionStatus.RUNNING →
  firstRow (documentsRepository w) = Some F →
  let r := IngestionService.cancel (IngestionJob.id J) user now w in
  r.1 = Ok (LoadedJob.load (cancelled now J)
              (documentsRepository w !! IngestionJob.documentId J))
  ∧ jobStatus r.2 (IngestionJob.id J) = Some IngestionStatus.CANCELLED
  ∧ IngestionJob.completedAt (cancelled now J) = Some now
  ∧ documentStatus r.2 (Document.id F) = Some DocumentStatus.UPLOADED.
Proof.
  intros HJ Hadm Hst HF. cbv zeta.
  rewrite (cancel_admin w J user) by (try done; intros ?; intuition congruence).
  cbv zeta. rewrite HF.
  unfold documentStatus, jobStatus. simpl.
  by rewrite !lookup_insert_eq.
Qed.

(** ** The simulated processor *)

(** C3.  For a job created by an admin and left alone, the two timers take
    it to [running] and then to [completed] with the sample result, as the
    claim says; but the simulated processor never writes to the documents
    table, so the document stays [processing] and does not become
    [processed]. *)
Theorem simulated_completion_leaves_document_processing (w : World)
    (D : Document.t) (config : option Json) (user : User.t) (t1 t2 : Date) :
  stored_document w D →
  Document.status D ≠ DocumentStatus.PROCESSING →
  User.role user = UserRole.ADMIN →
  let r := createThenSimulate (Build_CreateIngestionJobDto (Document.id D) config)
             user (length (timers w)) t1 t2 w in
  let id := IngestionJob.id (pendingJob w D config) in
  r.1 = Ok ()
  ∧ ingestionJobsRepository r.2 !! id
    = Some (IngestionJob.mk id IngestionStatus.COMPLETED None
              (Some IngestionService.sampleResult)
              (Some (default (JObject []) config)) (Some t1) (Some t2)
              (Document.id D))
  ∧ documentStatus r.2 (Document.id D) = Some DocumentStatus.PROCESSING
  ∧ documentStatus r.2 (Document.id D) ≠ Some DocumentStatus.PROCESSED
  ∧ timers r.2 = timers w.
Proof.
  intros HD Hst Hadm. simpl.
  rewrite (createThenSimulate_world w D config user) by done.
  unfold documentStatus. simpl. rewrite !lookup_insert_eq. simpl.
  by split_and!.
Qed.

Lemma simulated_completion_leaves_document_processing_witness :
  let w := Fixtures.world0 DocumentStatus.UPLOADED in
  let D := Fixtures.doc DocumentStatus.UPLOADED in
  let r := createThenSimulate (Build_CreateIngestionJobDto (Document.id D) None)
             Fixtures.admin (length (timers w)) 1000 6000 w in
  let id := IngestionJob.id (pendingJob w D None) in
  r.1 = Ok ()
  ∧ ingestionJobsRepository r.2 !! id
    = Some (IngestionJob.mk id IngestionStatus.COMPLETED None
              (Some IngestionService.sampleResult)
              (Some (default (JObject []) None)) (Some 1000) (Some 6000)
              (Document.id D))
  ∧ documentStatus r.2 (Document.id D) = Some DocumentStatus.PROCESSING
  ∧ documentStatus r.2 (Document.id D) ≠ Some DocumentStatus.PROCESSED
  ∧ timers r.2 = timers w.
Proof.
  apply (simulated_completion_leaves_document_processing
           (Fixtures.world0 DocumentStatus.UPLOADED)
           (Fixtures.doc DocumentStatus.UPLOADED) None Fixtures.admin 1000 6000).
  - reflexivity.
  - simpl. discriminate.
  - reflexivity.
Defined.

(** C5.  A job is created by an admin and cancelled at [t0], before the
    first timer fires.  The outer closure checks only that the row exists
    and the inner closure reads nothing: the cancelled job is moved to
    [running] at [t1] and to [completed] at [t2], and the completed-at that
    [cancel] had set is overwritten. *)
Theorem simulated_steps_overwrite_cancelled_job (w : World) (D : Document.t)
    (config : option Json) (user : User.t) (t0 t1 t2 : Date) :
  stored_document w D →
  Document.status D ≠ DocumentStatus.PROCESSING →
  User.role user = UserRole.ADMIN →
  let dto := Build_CreateIngestionJobDto (Document.id D) config in
  let id := IngestionJob.id (pendingJob w D config) in
  let n := length (timers w) in
  let cancelledAt :=
    (job ← IngestionService.create dto user;
     IngestionService.cancel (IngestionJob.id job) user t0) w in
  let afterRunning :=
    (job ← IngestionService.create dto user;
     _ ← IngestionService.cancel (IngestionJob.id job) user t0;
     IngestionService.fire n t1) w in
  let r := createCancelSimulate dto user n t0 t1 t2 w in
  jobStatus cancelledAt.2 id = Some IngestionStatus.CANCELLED
  ∧ jobStatus afterRunning.2 id = Some IngestionStatus.RUNNING
  ∧ r.1 = Ok ()
  ∧ ingestionJobsRepository r.2 !! id
    = Some (IngestionJob.mk id IngestionStatus.COMPLETED None
              (Some IngestionService.sampleResult)
              (Some (default (JObject []) config)) (Some t1) (Some t2)
              (Document.id D)).
Proof.
  intros HD Hst Hadm. cbv zeta.
  destruct (firstRow_insert (documentsRepository w) (Document.id D)
              (Document.set_status DocumentStatus.PROCESSING D)) as [F HF].
  rewrite (createCancelSimulate_world w D config user HD Hst Hadm t0 t1 t2 F HF).
  rewrite !(bind_ok _ _ w _ _ (create_admin w D config user HD Hadm Hst)).
  assert (Hs : IngestionJob.status (pendingJob w D config) = IngestionStatus.PENDING)
    by reflexivity.
  assert (Hfields :
    completed t2 (running t1 (cancelled t0 (pendingJob w D config)))
    = IngestionJob.mk (IngestionJob.id (pendingJob w D config))
        IngestionStatus.COMPLETED None (Some IngestionService.sampleResult)
        (Some (default (JObject []) config)) (Some t1) (Some t2) (Document.id D))
    by reflexivity.
  revert Hs Hfields. generalize (pendingJob w D config). intros J Hs Hfields.
  set (w1 := set_timers _ _).
  assert (HJ1 : stored_job w1 J) by apply lookup_insert_eq.
  assert (HC := cancel_and_running w1 J user (timers w) t0 t1 F HJ1 Hadm Hs
                  eq_refl HF).
  destruct HC as [HC1 HC2]. split_and!; try done.
  cbn [snd ingestionJobsRepository]. by rewrite lookup_insert_eq, Hfields.
Qed.

Lemma simulated_steps_overwrite_cancelled_job_witness :
  let w := Fixtures.world0 DocumentStatus.UPLOADED in
  let D := Fixtures.doc DocumentStatus.UPLOADED in
  let user := Fixtures.admin in
  let dto := Build_CreateIngestionJobDto (Document.id D) None in
  let id := IngestionJob.id (pendingJob w D None) in
  let n := length (timers w) in
  let cancelledAt :=
    (job ← IngestionService.create dto user;
     IngestionService.cancel (IngestionJob.id job) user 500) w in
  let afterRunning :=
    (job ← IngestionService.create dto user;
     _ ← IngestionService.cancel (IngestionJob.id job) user 500;
     IngestionService.fire n 1000) w in
  let r := createCancelSimulate dto user n 500 1000 6000 w in
  jobStatus cancelledAt.2 id = Some IngestionStatus.CANCELLED
  ∧ jobStatus afterRunning.2 id = Some IngestionStatus.RUNNING
  ∧ r.1 = Ok ()
  ∧ ingestionJobsRepository r.2 !! id
    = Some (IngestionJob.mk id IngestionStatus.COMPLETED None
              (Some IngestionService.sampleResult)
              (Some (default (JObject []) None)) (Some 1000) (Some 6000)
              (Document.id D)).
Proof.
  apply (simulated_steps_overwrite_cancelled_job
           (Fixtures.world0 DocumentStatus.UPLOADED)
           (Fixtures.doc DocumentStatus.UPLOADED) None Fixtures.admin
           500 1000 6000).
  - reflexivity.
  - simpl. discriminate.
  - reflexivity.
Defined.

(** C6.  [update] and [handleWebhook] leave a started-at that is set alone,
    the simulated processor does not: when a webhook has reported
    [running] at [t0], the outer closure that fires at [t1] assigns
    started-at again. *)
Theorem simulated_running_overwrites_startedAt (w : World) (D : Document.t)
    (config : option Json) (user : User.t) (t0 t1 : Date) :
  stored_document w D →
  Document.status D ≠ DocumentStatus.PROCESSING →
  User.role user = UserRole.ADMIN →
  let dto := Build_CreateIngestionJobDto (Document.id D) config in
  let id := IngestionJob.id (pendingJob w D config) in
  let reportRunning :=
    Build_UpdateIngestionJobDto (Some IngestionStatus.RUNNING) None None in
  let afterWebhook :=
    (job ← IngestionService.create dto user;
     IngestionService.handleWebhook (IngestionJob.id job) reportRunning t0) w in
  let r := createWebhookSimulate dto user (length (timers w)) t0 t1 w in
  IngestionJob.startedAt <$> ingestionJobsRepository afterWebhook.2 !! id
  = Some (Some t0)
  ∧ r.1 = Ok ()
  ∧ IngestionJob.startedAt <$> ingestionJobsRepository r.2 !! id
    = Some (Some t1).
Proof.
  intros HD Hst Hadm. simpl.
  set (J := pendingJob w D config).
  split_and!.
  - erewrite bind_ok by (by apply (create_admin w D config user)).
    rewrite (handleWebhook_stored _ J).
    + simpl. by rewrite lookup_insert_eq.
    + unfold stored_job. simpl. apply lookup_insert_eq.
  - by rewrite (createWebhookSimulate_world w D config user).
  - rewrite (createWebhookSimulate_world w D config user) by done. simpl.
    by rewrite lookup_insert_eq.
Qed.

Lemma simulated_running_overwrites_startedAt_witness :
  let w := Fixtures.world0 DocumentStatus.UPLOADED in
  let D := Fixtures.doc DocumentStatus.UPLOADED in
  let user := Fixtures.admin in
  let dto := Build_CreateIngestionJobDto (Document.id D) None in
  let id := IngestionJob.id (pendingJob w D None) in
  let reportRunning :=
    Build_UpdateIngestionJobDto (Some IngestionStatus.RUNNING) None None in
  let afterWebhook :=
    (job ← IngestionService.create dto user;
     IngestionService.handleWebhook (IngestionJob.id job) reportRunning 400) w in
  let r := createWebhookSimulate dto user (length (timers w)) 400 1000 w in
  IngestionJob.startedAt <$> ingestionJobsRepository afterWebhook.2 !! id
  = Some (Some 400)
  ∧ r.1 = Ok ()
  ∧ IngestionJob.startedAt <$> ingestionJobsRepository r.2 !! id
    = Some (Some 1000).
Proof.
  apply (simulated_running_overwrites_startedAt
           (Fixtures.world0 DocumentStatus.UPLOADED)
           (Fixtures.doc DocumentStatus.UPLOADED) None Fixtures.admin 400 1000).
  - reflexivity.
  - simpl. discriminate.
  - reflexivity.
Defined.

(** The two guarded paths of C6: neither [handleWebhook] nor a successful
    [update] changes a started-at that is set. *)
Lemma handleWebhook_keeps_startedAt (w : World) (J : IngestionJob.t)
    (dto : UpdateIngestionJobDto) (now t : Date) :
  stored_job w J →
  IngestionJob.startedAt J = Some t →
  IngestionJob.startedAt
    <$> ingestionJobsRepository
          (IngestionService.handleWebhook (IngestionJob.id J) dto now w).2
        !! IngestionJob.id J
  = Some (Some t).
Proof.
  intros HJ Ht. rewrite handleWebhook_stored by done. simpl.
  rewrite lookup_insert_eq. simpl. by rewrite (merged_startedAt_kept _ _ _ t).
Qed.

Lemma update_keeps_startedAt (w : World) (J : IngestionJob.t)
    (dto : UpdateIngestionJobDto) (user : User.t) (now t : Date) :
  stored_job w J →
  IngestionJob.startedAt J = Some t →
  IngestionJob.startedAt
    <$> ingestionJobsRepository
          (IngestionService.update (IngestionJob.id J) dto user now w).2
        !! IngestionJob.id J
  = Some (Some t).
Proof.
  intros HJ Ht. pose proof (update_cases w J dto user now HJ) as H.
  simpl in H.
  destruct (IngestionService.update (IngestionJob.id J) dto user now w)
    as [[J'|e] w']; simpl in *.
  - destruct H as (_ & -> & _). rewrite lookup_insert_eq. simpl.
    by rewrite (merged_startedAt_kept _ _ _ t).
  - subst w'. rewrite HJ. simpl. by rewrite Ht.
Qed.

(** ** Terminal states *)

(** C4, as the code has it.  For a job whose status is [completed],
    [failed] or [cancelled]:
    - [cancel] never changes the stored status, and on a completed or
      failed job it throws and writes nothing;
    - [handleWebhook] stores the status of the payload when the payload
      has one, whatever the current status is, and keeps the status when
      the payload has none;
    - [update] does the same when it succeeds, and writes nothing when it
      throws.
    The simulated processor is not part of this statement. *)
Theorem terminal_job_under_cancel_webhook_update (w : World)
    (J : IngestionJob.t) :
  stored_job w J →
  terminal (IngestionJob.status J) →
  (∀ user now,
     jobStatus (IngestionService.cancel (IngestionJob.id J) user now w).2
       (IngestionJob.id J)
     = Some (IngestionJob.status J))
  ∧ (IngestionJob.status J ≠ IngestionStatus.CANCELLED →
     ∀ user now, ∃ e,
       IngestionService.cancel (IngestionJob.id J) user now w = (Throw e, w))
  ∧ (∀ dto now,
       jobStatus (IngestionService.handleWebhook (IngestionJob.id J) dto now w).2
         (IngestionJob.id J)
       = Some (default (IngestionJob.status J) (uj_status dto)))
  ∧ (∀ dto user now,
       let r := IngestionService.update (IngestionJob.id J) dto user now w in
       match r.1 with
       | Ok _ =>
           jobStatus r.2 (IngestionJob.id J)
           = Some (default (IngestionJob.status J) (uj_status dto))
       | Throw _ => r.2 = w
       end).
Proof.
  intros HJ Hterm. split_and!.
  - intros user now. by apply cancel_keeps_terminal_status.
  - intros Hnc user now. apply cancel_completed_or_failed; [done|].
    apply terminal_cases in Hterm. tauto.
  - intros dto now. rewrite handleWebhook_stored by done.
    unfold jobStatus. simpl. rewrite lookup_insert_eq. simpl.
    by rewrite merged_status.
  - intros dto user now. pose proof (update_cases w J dto user now HJ) as H.
    simpl in *.
    destruct (IngestionService.update (IngestionJob.id J) dto user now w)
      as [[J'|e] w']; simpl in *; [|done].
    destruct H as (_ & Hjobs & _). unfold jobStatus.
    rewrite Hjobs, lookup_insert_eq. simpl. by rewrite merged_status.
Qed.

Lemma terminal_job_under_cancel_webhook_update_witness :
  let J := Fixtures.job IngestionStatus.COMPLETED (Some 1000) (Some 6000) in
  let w := Fixtures.world1 DocumentStatus.PROCESSED J in
  (∀ user now,
     jobStatus (IngestionService.cancel (IngestionJob.id J) user now w).2
       (IngestionJob.id J)
     = Some (IngestionJob.status J))
  ∧ (IngestionJob.status J ≠ IngestionStatus.CANCELLED →
     ∀ user now, ∃ e,
       IngestionService.cancel (IngestionJob.id J) user now w = (Throw e, w))
  ∧ (∀ dto now,
       jobStatus (IngestionService.handleWebhook (IngestionJob.id J) dto now w).2
         (IngestionJob.id J)
       = Some (default (IngestionJob.status J) (uj_status dto)))
  ∧ (∀ dto user now,
       let r := IngestionService.update (IngestionJob.id J) dto user now w in
       match r.1 with
       | Ok _ =>
           jobStatus r.2 (IngestionJob.id J)
           = Some (default (IngestionJob.status J) (uj_status dto))
       | Throw _ => r.2 = w
       end).
Proof.
  apply (terminal_job_under_cancel_webhook_update
           (Fixtures.world1 DocumentStatus.PROCESSED
              (Fixtures.job IngestionStatus.COMPLETED (Some 1000) (Some 6000)))
           (Fixtures.job IngestionStatus.COMPLETED (Some 1000) (Some 6000))).
  - reflexivity.
  - apply (bool_decide_unpack (terminal _)). vm_compute. exact I.
Defined.

(** C4 as stated fails: an admin update, and a webhook, move a completed
    job to another status. *)
Lemma update_and_webhook_leave_terminal_state :
  let J := Fixtures.job IngestionStatus.COMPLETED (Some 1000) (Some 6000) in
  let w := Fixtures.world1 DocumentStatus.PROCESSED J in
  let toRunning :=
    Build_UpdateIngestionJobDto (Some IngestionStatus.RUNNING) None None in
  let toPending :=
    Build_UpdateIngestionJobDto (Some IngestionStatus.PENDING) None None in
  jobStatus w "j1" = Some IngestionStatus.COMPLETED
  ∧ terminal IngestionStatus.COMPLETED
  ∧ jobStatus (IngestionService.update "j1" toRunning Fixtures.admin 9000 w).2 "j1"
    = Some IngestionStatus.RUNNING
  ∧ jobStatus (IngestionService.handleWebhook "j1" toPending 9000 w).2 "j1"
    = Some IngestionStatus.PENDING.
Proof.
  split_and!; [reflexivity | | reflexivity | reflexivity].
  apply terminal_cases. by left.
Qed.

(** ** Reading a document or a job *)

(** C8.  The claim says that [findOne] succeeds exactly for an admin and
    for the owner of the document, for documents and for jobs.  For jobs
    the code does that.  For documents it does not: the [select] of
    [DocumentsService.findOne] leaves out [uploadedById], the guard compares
    [undefined] with the id of the actor, and the owner who is not an admin
    gets Forbidden for their own document, while [IngestionService.findOne]
    returns the owner a job on that document. *)
Theorem documents_findOne_refuses_the_owner (w : World) (D : Document.t)
    (user : User.t) :
  stored_document w D →
  User.role user ≠ UserRole.ADMIN →
  User.id user = Document.uploadedById D →
  let r := DocumentsService.findOne (Document.id D) user w in
  r.1 = Throw (ForbiddenException "You can only access your own documents")
  ∧ r.2 = w
  ∧ ∀ J : IngestionJob.t,
      stored_job w J →
      IngestionJob.documentId J = Document.id D →
      IngestionService.findOne (IngestionJob.id J) user w
      = (Ok (LoadedJob.load J (Some D)), w).
Proof.
  intros HD Hna Hown. cbv zeta. rewrite documents_findOne_stored by done.
  rewrite decide_False by done. split_and!; try done.
  intros J HJ HJD. rewrite (jobs_findOne_stored w J D user) by done.
  rewrite decide_True; [done|]. by right.
Qed.

Lemma documents_findOne_refuses_the_owner_witness :
  let w := Fixtures.world1 DocumentStatus.PROCESSING
             (Fixtures.job IngestionStatus.PENDING None None) in
  let D := Fixtures.doc DocumentStatus.PROCESSING in
  let user := Fixtures.editor in
  let r := DocumentsService.findOne (Document.id D) user w in
  r.1 = Throw (ForbiddenException "You can only access your own documents")
  ∧ r.2 = w
  ∧ ∀ J : IngestionJob.t,
      stored_job w J →
      IngestionJob.documentId J = Document.id D →
      IngestionService.findOne (IngestionJob.id J) user w
      = (Ok (LoadedJob.load J (Some D)), w).
Proof.
  apply (documents_findOne_refuses_the_owner
           (Fixtures.world1 DocumentStatus.PROCESSING
              (Fixtures.job IngestionStatus.PENDING None None))
           (Fixtures.doc DocumentStatus.PROCESSING) Fixtures.editor).
  - reflexivity.
  - simpl. discriminate.
  - reflexivity.
Defined.

(** The rest of C8.  [DocumentsService.findOne] returns the document to an
    admin and to nobody else; [IngestionService.findOne] returns the job
    exactly when the actor is an admin or the owner of the job's document,
    and throws Forbidden otherwise.  Neither writes anything. *)
Lemma documents_findOne_admin_only (w : World) (D : Document.t) (user : User.t) :
  stored_document w D →
  let r := DocumentsService.findOne (Document.id D) user w in
  (r.1 = Ok (LoadedDocument.load D) ↔ User.role user = UserRole.ADMIN)
  ∧ (User.role user ≠ UserRole.ADMIN → raises r Forbidden)
  ∧ r.2 = w.
Proof.
  intros HD. cbv zeta. rewrite documents_findOne_stored by done.
  unfold raises. case_decide; simpl; split_and!; try done; split; done.
Qed.

Lemma jobs_findOne_admin_or_owner (w : World) (J : IngestionJob.t)
    (D : Document.t) (user : User.t) :
  stored_job w J →
  stored_document w D →
  IngestionJob.documentId J = Document.id D →
  let allowed :=
    User.role user = UserRole.ADMIN ∨ User.id user = Document.uploadedById D in
  let r := IngestionService.findOne (IngestionJob.id J) user w in
  (r.1 = Ok (LoadedJob.load J (Some D)) ↔ allowed)
  ∧ (¬ allowed → raises r Forbidden)
  ∧ r.2 = w.
Proof.
  intros HJ HD HJD. cbv zeta. rewrite (jobs_findOne_stored w J D user) by done.
  unfold raises, canView.
  case_decide; simpl; split_and!; try done; try tauto; split; try done; tauto.
Qed.

(** ** The webhook *)

(** C10.  For a stored job and any payload, [handleWebhook] succeeds and
    writes one row of the jobs table, keeping its id, document id and
    config; the documents table, and with it the status of the owning
    document, is untouched, as are the other tables and the timers. *)
Theorem handleWebhook_writes_only_the_job (w : World) (J : IngestionJob.t)
    (dto : UpdateIngestionJobDto) (now : Date) :
  stored_job w J →
  let r := IngestionService.handleWebhook (IngestionJob.id J) dto now w in
  (∃ J',
     r.1 = Ok J'
     ∧ ingestionJobsRepository r.2
       = <[IngestionJob.id J := J']> (ingestionJobsRepository w)
     ∧ IngestionJob.id J' = IngestionJob.id J
     ∧ IngestionJob.documentId J' = IngestionJob.documentId J
     ∧ IngestionJob.config J' = IngestionJob.config J)
  ∧ documentsRepository r.2 = documentsRepository w
  ∧ documentStatus r.2 (IngestionJob.documentId J)
    = documentStatus w (IngestionJob.documentId J)
  ∧ usersRepository r.2 = usersRepository w
  ∧ uploads r.2 = uploads w
  ∧ timers r.2 = timers w.
Proof.
  intros HJ. simpl. rewrite handleWebhook_stored by done. simpl.
  split_and!; try done.
  exists (merged dto now J).
  by rewrite merged_id, merged_documentId, merged_config.
Qed.

Lemma handleWebhook_writes_only_the_job_witness :
  let J := Fixtures.job IngestionStatus.RUNNING (Some 1000) None in
  let w := Fixtures.world1 DocumentStatus.PROCESSING J in
  let dto := Build_UpdateIngestionJobDto (Some IngestionStatus.FAILED)
               (Some "Processing failed due to unsupported file format") None in
  let now := 4000 in
  let r := IngestionService.handleWebhook (IngestionJob.id J) dto now w in
  (∃ J',
     r.1 = Ok J'
     ∧ ingestionJobsRepository r.2
       = <[IngestionJob.id J := J']> (ingestionJobsRepository w)
     ∧ IngestionJob.id J' = IngestionJob.id J
     ∧ IngestionJob.documentId J' = IngestionJob.documentId J
     ∧ IngestionJob.config J' = IngestionJob.config J)
  ∧ documentsRepository r.2 = documentsRepository w
  ∧ documentStatus r.2 (IngestionJob.documentId J)
    = documentStatus w (IngestionJob.documentId J)
  ∧ usersRepository r.2 = usersRepository w
  ∧ uploads r.2 = uploads w
  ∧ timers r.2 = timers w.
Proof.
  apply (handleWebhook_writes_only_the_job
           (Fixtures.world1 DocumentStatus.PROCESSING
              (Fixtures.job IngestionStatus.RUNNING (Some 1000) None))
           (Fixtures.job IngestionStatus.RUNNING (Some 1000) None)
           (Build_UpdateIngestionJobDto (Some IngestionStatus.FAILED)
              (Some "Processing failed due to unsupported file format") None)
           4000).
  reflexivity.
Defined.

(** ** Unknown ids *)

(** C9, as the code has it.  For an id that no table knows:
    - the methods that load the record first throw NotFound for every
      actor: [findOne], [update] and [remove] of documents, [create] (for
      the document id), [findOne], [update], [cancel] and [handleWebhook] of
      jobs;
    - the admin-only methods test the role (and, for users, the actor's
      own id) first: [IngestionService.remove], [UsersService.remove],
      [updateRole], [updateUserStatus] and [DocumentsService.updateStatus]
      throw Forbidden for an actor who is not an admin, and NotFound only
      for an admin.
    Nothing is written in any of these cases. *)
Theorem unknown_id_order_of_checks (w : World) (id : string) (user : User.t) :
  documentsRepository w !! id = None →
  ingestionJobsRepository w !! id = None →
  usersRepository w !! id = None →
  DocumentsService.findOne id user w
  = (Throw (NotFoundException "Document not found"), w)
  ∧ (∀ dto, DocumentsService.update id dto user w
            = (Throw (NotFoundException "Document not found"), w))
  ∧ DocumentsService.remove id user w
    = (Throw (NotFoundException "Document not found"), w)
  ∧ (∀ config, IngestionService.create (Build_CreateIngestionJobDto id config) user w
               = (Throw (NotFoundException "Document not found"), w))
  ∧ IngestionService.findOne id user w
    = (Throw (NotFoundException "Ingestion job not found"), w)
  ∧ (∀ dto now, IngestionService.update id dto user now w
                = (Throw (NotFoundException "Ingestion job not found"), w))
  ∧ (∀ now, IngestionService.cancel id user now w
            = (Throw (NotFoundException "Ingestion job not found"), w))
  ∧ (∀ dto now, IngestionService.handleWebhook id dto now w
                = (Throw (NotFoundException "Ingestion job not found"), w))
  ∧ IngestionService.remove id user w
    = (Throw (adminOnly user "Only admins can delete ingestion jobs"
                "Ingestion job not found"), w)
  ∧ UsersService.remove id user w
    = (Throw (adminOnlyNotSelf user id "Only admins can delete users"
                "You cannot delete your own account" "User not found"), w)
  ∧ (∀ role, UsersService.updateRole id role user w
             = (Throw (adminOnly user "Only admins can update user roles"
                         "User not found"), w))
  ∧ UsersService.updateUserStatus id user w
    = (Throw (adminOnlyNotSelf user id "Only admins can update user status"
                "You cannot deactivate your own account" "User not found"), w)
  ∧ (∀ status, DocumentsService.updateStatus (Some id) status user w
               = (Throw (adminOnly user "Only admins can update document status"
                           "Document not found"), w)).
Proof.
  intros Hd Hj Hu.
  unfold adminOnly, adminOnlyNotSelf.
  split_and!; intros;
    unfold IngestionService.create, IngestionService.update,
      IngestionService.cancel, IngestionService.findOne,
      IngestionService.handleWebhook, IngestionService.remove,
      IngestionService.delete_, UsersService.remove, UsersService.delete_,
      UsersService.updateRole, UsersService.updateUserStatus,
      DocumentsService.findOne, DocumentsService.update,
      DocumentsService.remove, DocumentsService.updateStatus, findOneWhere;
    step; rewrite ?Hd, ?Hj, ?Hu; simpl; try done;
    repeat (case_decide; simpl; rewrite ?Hd, ?Hj, ?Hu; simpl);
    try done; try tauto; try congruence.
Qed.

Lemma unknown_id_order_of_checks_witness :
  let w := Fixtures.world0 DocumentStatus.UPLOADED in
  let id := "nonexistent-id" in
  let user := Fixtures.viewer in
  DocumentsService.findOne id user w
  = (Throw (NotFoundException "Document not found"), w)
  ∧ (∀ dto, DocumentsService.update id dto user w
            = (Throw (NotFoundException "Document not found"), w))
  ∧ DocumentsService.remove id user w
    = (Throw (NotFoundException "Document not found"), w)
  ∧ (∀ config, IngestionService.create (Build_CreateIngestionJobDto id config) user w
               = (Throw (NotFoundException "Document not found"), w))
  ∧ IngestionService.findOne id user w
    = (Throw (NotFoundException "Ingestion job not found"), w)
  ∧ (∀ dto now, IngestionService.update id dto user now w
                = (Throw (NotFoundException "Ingestion job not found"), w))
  ∧ (∀ now, IngestionService.cancel id user now w
            = (Throw (NotFoundException "Ingestion job not found"), w))
  ∧ (∀ dto now, IngestionService.handleWebhook id dto now w
                = (Throw (NotFoundException "Ingestion job not found"), w))
  ∧ IngestionService.remove id user w
    = (Throw (adminOnly user "Only admins can delete ingestion jobs"
                "Ingestion job not found"), w)
  ∧ UsersService.remove id user w
    = (Throw (adminOnlyNotSelf user id "Only admins can delete users"
                "You cannot delete your own account" "User not found"), w)
  ∧ (∀ role, UsersService.updateRole id role user w
             = (Throw (adminOnly user "Only admins can update user roles"
                         "User not found"), w))
  ∧ UsersService.updateUserStatus id user w
    = (Throw (adminOnlyNotSelf user id "Only admins can update user status"
                "You cannot deactivate your own account" "User not found"), w)
  ∧ (∀ status, DocumentsService.updateStatus (Some id) status user w
               = (Throw (adminOnly user "Only admins can update document status"
                           "Document not found"), w)).
Proof.
  apply (unknown_id_order_of_checks (Fixtures.world0 DocumentStatus.UPLOADED)
           "nonexistent-id" Fixtures.viewer).
  - reflexivity.
  - reflexivity.
  - reflexivity.
Defined.

(** C9 as stated fails: the viewer who deletes a job, or a user, with an
    unknown id gets Forbidden and not NotFound. *)
Lemma remove_unknown_id_by_non_admin :
  let w := Fixtures.world0 DocumentStatus.UPLOADED in
  let rj := IngestionService.remove "nonexistent-id" Fixtures.viewer w in
  let ru := UsersService.remove "nonexistent-id" Fixtures.viewer w in
  ingestionJobsRepository w !! "nonexistent-id" = None
  ∧ usersRepository w !! "nonexistent-id" = None
  ∧ User.role Fixtures.viewer ≠ UserRole.ADMIN
  ∧ rj.1 = Throw (ForbiddenException "Only admins can delete ingestion jobs")
  ∧ ¬ raises rj NotFound
  ∧ ru.1 = Throw (ForbiddenException "Only admins can delete users")
  ∧ ¬ raises ru NotFound.
Proof.
  split_and!; try reflexivity; vm_compute; discriminate.
Qed.

(** * Further properties of the services *)

(** ** Listing *)

Lemma elem_of_rows `{Countable K} {A} (m : gmap K A) (x : A) :
  x ∈ (map_to_list m).*2 ↔ ∃ k, m !! k = Some x.
Proof.
  rewrite list_elem_of_fmap. split.
  - intros [[k y] [-> Hin]]. exists k. by apply elem_of_map_to_list.
  - intros [k Hk]. exists (k, x). split; [done|]. by apply elem_of_map_to_list.
Qed.

(** X1.  [DocumentsService.findAll] lists, as loaded objects, exactly the
    stored documents that the actor owns, and every stored document for an
    admin, and writes nothing.  For an admin the list is what [findOne]
    returns; an actor who is not an admin gets Forbidden from [findOne] for
    every document of their own list. *)
Theorem documents_findAll_and_findOne (w : World) (user : User.t) :
  well_keyed w →
  ∃ l, DocumentsService.findAll user w = (Ok l, w)
       ∧ (∀ v, v ∈ l
               ↔ ∃ D, stored_document w D
                      ∧ (User.role user = UserRole.ADMIN
                         ∨ Document.uploadedById D = User.id user)
                      ∧ v = LoadedDocument.load D)
       ∧ (User.role user = UserRole.ADMIN →
          ∀ v, v ∈ l
               ↔ DocumentsService.findOne (LoadedDocument.id v) user w = (Ok v, w))
       ∧ (User.role user ≠ UserRole.ADMIN →
          ∀ v, v ∈ l →
               DocumentsService.findOne (LoadedDocument.id v) user w
               = (Throw (ForbiddenException "You can only access your own documents"),
                  w)).
Proof.
  intros (Hk & _ & _). eexists. split; [reflexivity|].
  assert (Hl : ∀ v,
    v ∈ LoadedDocument.load <$>
          (if decide (User.role user ≠ UserRole.ADMIN)
           then filter (λ D, Document.uploadedById D = User.id user)
                  (map_to_list (documentsRepository w)).*2
           else (map_to_list (documentsRepository w)).*2)
    ↔ ∃ D, stored_document w D
           ∧ (User.role user = UserRole.ADMIN
              ∨ Document.uploadedById D = User.id user)
           ∧ v = LoadedDocument.load D).
  { intros v. rewrite list_elem_of_fmap. unfold stored_document. split.
    - intros (D & -> & HD). exists D. case_decide as Hadm.
      + apply list_elem_of_filter in HD as [Hown [k Hk']%elem_of_rows].
        rewrite <- (Hk _ _ Hk') in Hk'. by split_and!; [|right|].
      + apply elem_of_rows in HD as [k Hk'].
        rewrite <- (Hk _ _ Hk') in Hk'. split_and!; [done| |done].
        left. by destruct (decide (User.role user = UserRole.ADMIN)).
    - intros (D & HD & Hown & ->). exists D. split; [done|]. case_decide as Hadm.
      + apply list_elem_of_filter. split; [tauto|]. apply elem_of_rows. eauto.
      + apply elem_of_rows. eauto. }
  split_and!; [done| |].
  - intros Hadm v. rewrite Hl. split.
    + intros (D & HD & _ & ->). cbn [LoadedDocument.id LoadedDocument.load].
      rewrite documents_findOne_stored by done. by rewrite decide_True.
    + unfold DocumentsService.findOne. step.
      destruct (documentsRepository w !! LoadedDocument.id v) as [D|] eqn:HD;
        simpl; [|done].
      rewrite decide_False by tauto. intros [= Hv]. exists D.
      split_and!; [|by left|done].
      unfold stored_document. by rewrite (Hk _ _ HD).
  - intros Hna v (D & HD & _ & ->)%Hl. cbn [LoadedDocument.id LoadedDocument.load].
    rewrite documents_findOne_stored by done. by rewrite decide_False.
Qed.

Lemma documents_findAll_and_findOne_witness :
  let w := Fixtures.world1 DocumentStatus.PROCESSING (Fixtures.job IngestionStatus.PENDING None None) in
  let user := Fixtures.editor in
  ∃ l, DocumentsService.findAll user w = (Ok l, w)
       ∧ (∀ v, v ∈ l
               ↔ ∃ D, stored_document w D
                      ∧ (User.role user = UserRole.ADMIN
                         ∨ Document.uploadedById D = User.id user)
                      ∧ v = LoadedDocument.load D)
       ∧ (User.role user = UserRole.ADMIN →
          ∀ v, v ∈ l
               ↔ DocumentsService.findOne (LoadedDocument.id v) user w = (Ok v, w))
       ∧ (User.role user ≠ UserRole.ADMIN →
          ∀ v, v ∈ l →
               DocumentsService.findOne (LoadedDocument.id v) user w
               = (Throw (ForbiddenException "You can only access your own documents"),
                  w)).
Proof.
  apply (documents_findAll_and_findOne
           (Fixtures.world1 DocumentStatus.PROCESSING (Fixtures.job IngestionStatus.PENDING None None))
           (Fixtures.editor)).
  - apply (bool_decide_unpack _); vm_compute; exact I.
Defined.

(** X2.  In a world whose rows are stored under their own ids,
    [IngestionService.findAll] returns exactly the jobs, with their joined
    document, that [IngestionService.findOne] returns to the same actor; a
    job whose document is missing is listed for an admin only. *)
Theorem jobs_findAll_agrees_with_findOne (w : World) (user : User.t) :
  well_keyed w →
  ∃ l, IngestionService.findAll user w = (Ok l, w)
       ∧ ∀ v, v ∈ l
              ↔ IngestionService.findOne (LoadedJob.id v) user w = (Ok v, w).
Proof.
  intros (_ & Hk & _). eexists. split; [reflexivity|]. intros v.
  unfold IngestionService.findOne, IngestionService.notAdminNorOwner,
    IngestionService.notOwner. step.
  assert (Hrows :
    v ∈ ((λ job, LoadedJob.load job
                   (documentsRepository w !! IngestionJob.documentId job))
           <$> (map_to_list (ingestionJobsRepository w)).*2)
    ↔ ∃ J, ingestionJobsRepository w !! IngestionJob.id J = Some J
           ∧ v = LoadedJob.load J
                   (documentsRepository w !! IngestionJob.documentId J)).
  { rewrite list_elem_of_fmap. split.
    - intros [J [-> [k Hk']%elem_of_rows]]. exists J.
      rewrite <- (Hk _ _ Hk') in Hk'. done.
    - intros (J & HJ & ->). exists J. split; [done|]. apply elem_of_rows. eauto. }
  case_decide as Hadm.
  - rewrite list_elem_of_filter, Hrows. split.
    + intros [Hown (J & HJ & ->)]. cbn [LoadedJob.id LoadedJob.load] in *.
      rewrite HJ. simpl.
      destruct (documentsRepository w !! IngestionJob.documentId J) as [D|];
        simpl in *; [|done].
      case_bool_decide; [congruence|done].
    + destruct (ingestionJobsRepository w !! LoadedJob.id v) as [J'|] eqn:HJ;
        [|done]. simpl.
      destruct (documentsRepository w !! IngestionJob.documentId J') as [D|] eqn:HD;
        simpl; [|done].
      case_bool_decide as Hown; simpl; [done|]. intros [= <-].
      cbn [LoadedJob.document]. split.
      * simpl. f_equal.
        destruct (decide (Document.uploadedById D = User.id user)); tauto.
      * exists J'. rewrite HD. split; [|done]. by rewrite (Hk _ _ HJ).
  - rewrite Hrows. split.
    + intros (J & HJ & ->). cbn [LoadedJob.id LoadedJob.load]. by rewrite HJ.
    + destruct (ingestionJobsRepository w !! LoadedJob.id v) as [J'|] eqn:HJ;
        [|done]. simpl. intros [= <-]. exists J'. split; [|done].
      by rewrite (Hk _ _ HJ).
Qed.

Lemma jobs_findAll_agrees_with_findOne_witness :
  let w := Fixtures.world1 DocumentStatus.PROCESSING (Fixtures.job IngestionStatus.PENDING None None) in
  let user := Fixtures.editor in
  ∃ l, IngestionService.findAll user w = (Ok l, w)
       ∧ ∀ v, v ∈ l
              ↔ IngestionService.findOne (LoadedJob.id v) user w = (Ok v, w).
Proof.
  apply (jobs_findAll_agrees_with_findOne
           (Fixtures.world1 DocumentStatus.PROCESSING (Fixtures.job IngestionStatus.PENDING None None))
           (Fixtures.editor)).
  - apply (bool_decide_unpack _); vm_compute; exact I.
Defined.

(** ** Uploading, downloading and deleting a document *)

(** X3.  An upload with a file adds one document with status [uploaded],
    owned by the uploader, under a key that was free, and adds its path to
    the upload directory; the jobs table is untouched.  An admin can then
    download it under its original name; every actor who is not an admin,
    the uploader included, gets Forbidden. *)
Theorem upload_then_download (w : World) (resolve : string → string)
    (uuid : string) (file : MulterFile) (dto : CreateDocumentDto) (user : User.t) :
  let r := DocumentsService.create resolve uuid (Some file) dto user w in
  let path := resolve (uuid +:+ "-" +:+ originalname file) in
  ∃ D,
    r.1 = Ok D
    ∧ Document.status D = DocumentStatus.UPLOADED
    ∧ Document.uploadedById D = User.id user
    ∧ Document.filePath D = path
    ∧ documentsRepository w !! Document.id D = None
    ∧ documentsRepository r.2 = <[Document.id D := D]> (documentsRepository w)
    ∧ uploads r.2 = {[path]} ∪ uploads w
    ∧ ingestionJobsRepository r.2 = ingestionJobsRepository w
    ∧ (∀ actor,
         User.role actor = UserRole.ADMIN →
         DocumentsService.downloadDocument (Document.id D) actor r.2
         = (Ok (path, originalname file), r.2))
    ∧ ∀ actor,
        User.role actor ≠ UserRole.ADMIN →
        DocumentsService.downloadDocument (Document.id D) actor r.2
        = (Throw (ForbiddenException "You can only access your own documents"), r.2).
Proof.
  simpl. eexists. split; [reflexivity|]. simpl.
  split_and!; try done.
  - apply not_elem_of_dom, is_fresh.
  - intros actor Hadm.
    unfold DocumentsService.downloadDocument, DocumentsService.findOne. step.
    rewrite lookup_insert_eq. simpl.
    case_decide; [tauto|]. simpl.
    rewrite bool_decide_true by set_solver. done.
  - intros actor Hna.
    unfold DocumentsService.downloadDocument, DocumentsService.findOne. step.
    rewrite lookup_insert_eq. simpl.
    case_decide; [done|]. exfalso. intuition congruence.
Qed.

(** X4.  For a stored document that no job refers to (the foreign key of
    the jobs table refuses the delete otherwise): [remove] by an admin or by
    the owner deletes the row and the file and nothing else, after which a
    download by anyone is NotFound; [remove] by any other actor throws
    Forbidden and writes nothing. *)
Theorem remove_document (w : World) (D : Document.t) (user : User.t) :
  stored_document w D →
  unreferenced w (Document.id D) →
  let r := DocumentsService.remove (Document.id D) user w in
  (User.role user = UserRole.ADMIN ∨ User.id user = Document.uploadedById D →
   r.1 = Ok ()
   ∧ documentsRepository r.2 = delete (Document.id D) (documentsRepository w)
   ∧ uploads r.2 = uploads w ∖ {[Document.filePath D]}
   ∧ ingestionJobsRepository r.2 = ingestionJobsRepository w
   ∧ usersRepository r.2 = usersRepository w
   ∧ ∀ anyone,
       DocumentsService.downloadDocument (Document.id D) anyone r.2
       = (Throw (NotFoundException "Document not found"), r.2))
  ∧ (¬ (User.role user = UserRole.ADMIN ∨ User.id user = Document.uploadedById D) →
     r = (Throw (ForbiddenException "You can only delete your own documents"), w)).
Proof.
  intros HD _. simpl. unfold DocumentsService.remove. step. rewrite HD.
  split.
  - intros Hview. case_decide; [exfalso; intuition congruence|]. simpl.
    split_and!; try done.
    intros anyone.
    unfold DocumentsService.downloadDocument, DocumentsService.findOne. step.
    by rewrite lookup_delete_eq.
  - intros Hno. case_decide; [done|]. exfalso. apply Hno.
    destruct (decide (User.role user = UserRole.ADMIN)); [tauto|].
    destruct (decide (Document.uploadedById D = User.id user)); [by right|tauto].
Qed.

Lemma remove_document_witness :
  let w := Fixtures.world0 DocumentStatus.UPLOADED in
  let D := Fixtures.doc DocumentStatus.UPLOADED in
  let user := Fixtures.editor in
  let r := DocumentsService.remove (Document.id D) user w in
  (User.role user = UserRole.ADMIN ∨ User.id user = Document.uploadedById D →
   r.1 = Ok ()
   ∧ documentsRepository r.2 = delete (Document.id D) (documentsRepository w)
   ∧ uploads r.2 = uploads w ∖ {[Document.filePath D]}
   ∧ ingestionJobsRepository r.2 = ingestionJobsRepository w
   ∧ usersRepository r.2 = usersRepository w
   ∧ ∀ anyone,
       DocumentsService.downloadDocument (Document.id D) anyone r.2
       = (Throw (NotFoundException "Document not found"), r.2))
  ∧ (¬ (User.role user = UserRole.ADMIN ∨ User.id user = Document.uploadedById D) →
     r = (Throw (ForbiddenException "You can only delete your own documents"), w)).
Proof.
  apply (remove_document
           (Fixtures.world0 DocumentStatus.UPLOADED)
           (Fixtures.doc DocumentStatus.UPLOADED)
           (Fixtures.editor)).
  - reflexivity.
  - apply (bool_decide_unpack _); vm_compute; exact I.
Defined.

(** X5.  [DocumentsService.update] by an owner who is not an admin: a
    payload that carries a status is refused as a whole with Forbidden and
    nothing is written; a payload without one is saved, changes only the
    description and the metadata it carries, and keeps status, owner and
    file path. *)
Theorem update_document_by_owner (w : World) (D : Document.t)
    (dto : UpdateDocumentDto) (user : User.t) :
  stored_document w D →
  User.role user ≠ UserRole.ADMIN →
  User.id user = Document.uploadedById D →
  let r := DocumentsService.update (Document.id D) dto user w in
  (is_Some (ud_status dto) →
   r = (Throw (ForbiddenException "Only admins can update document status"), w))
  ∧ (ud_status dto = None →
     ∃ D',
       r = (Ok D', set_documents <[Document.id D := D']> w)
       ∧ Document.status D' = Document.status D
       ∧ Document.uploadedById D' = Document.uploadedById D
       ∧ Document.filePath D' = Document.filePath D
       ∧ Document.description D'
         = from_option Some (Document.description D) (ud_description dto)
       ∧ Document.metadata D'
         = from_option Some (Document.metadata D) (ud_metadata dto)).
Proof.
  intros HD Hna Hown. simpl. unfold DocumentsService.update. step. rewrite HD.
  case_decide; [exfalso; intuition congruence|].
  split.
  - intros Hs. case_decide; [done|]. tauto.
  - intros Hs. case_decide as Hc; [destruct Hc as [[? Hc] _]; congruence|].
    unfold DocumentsService.assign.
    destruct dto as [[d|] [m|] st]; simpl in *; subst st; simpl;
      eexists; by split_and!.
Qed.

Lemma update_document_by_owner_witness :
  let w := Fixtures.world0 DocumentStatus.UPLOADED in
  let D := Fixtures.doc DocumentStatus.UPLOADED in
  let dto := Build_UpdateDocumentDto (Some "Quarterly report") None None in
  let user := Fixtures.editor in
  let r := DocumentsService.update (Document.id D) dto user w in
  (is_Some (ud_status dto) →
   r = (Throw (ForbiddenException "Only admins can update document status"), w))
  ∧ (ud_status dto = None →
     ∃ D',
       r = (Ok D', set_documents <[Document.id D := D']> w)
       ∧ Document.status D' = Document.status D
       ∧ Document.uploadedById D' = Document.uploadedById D
       ∧ Document.filePath D' = Document.filePath D
       ∧ Document.description D'
         = from_option Some (Document.description D) (ud_description dto)
       ∧ Document.metadata D'
         = from_option Some (Document.metadata D) (ud_metadata dto)).
Proof.
  apply (update_document_by_owner
           (Fixtures.world0 DocumentStatus.UPLOADED)
           (Fixtures.doc DocumentStatus.UPLOADED)
           (Build_UpdateDocumentDto (Some "Quarterly report") None None)
           (Fixtures.editor)).
  - reflexivity.
  - simpl; discriminate.
  - reflexivity.
Defined.

(** ** Updating a job *)

Lemma update_not_admin (w : World) (J : IngestionJob.t)
    (D : Document.t) (dto : UpdateIngestionJobDto) (user : User.t) (now : Date) :
  stored_job w J →
  stored_document w D →
  IngestionJob.documentId J = Document.id D →
  User.role user ≠ UserRole.ADMIN →
  IngestionService.update (IngestionJob.id J) dto user now w
  = (Throw (ForbiddenException
              (if decide (User.id user = Document.uploadedById D)
               then "Only admins can update ingestion jobs"
               else "You can only access jobs for your own documents")), w).
Proof.
  intros HJ HD HJD Hna. unfold IngestionService.update. step.
  rewrite (jobs_findOne_stored w J D user) by done. unfold canView.
  repeat case_decide; simpl; try done; tauto.
Qed.

(** X6.  [IngestionService.update] by an actor who is not an admin throws
    Forbidden and writes nothing, whoever owns the document; the owner is
    told that only admins can update ingestion jobs. *)
Theorem update_job_refused_for_non_admin (w : World) (J : IngestionJob.t)
    (D : Document.t) (dto : UpdateIngestionJobDto) (user : User.t) (now : Date) :
  stored_job w J →
  stored_document w D →
  IngestionJob.documentId J = Document.id D →
  User.role user ≠ UserRole.ADMIN →
  let r := IngestionService.update (IngestionJob.id J) dto user now w in
  raises r Forbidden
  ∧ r.2 = w
  ∧ (User.id user = Document.uploadedById D →
     r.1 = Throw (ForbiddenException "Only admins can update ingestion jobs")).
Proof.
  intros HJ HD HJD Hna. simpl.
  rewrite (update_not_admin w J D dto user now) by done. unfold raises. simpl.
  split_and!; try done. intros Hown. by rewrite decide_True.
Qed.

Lemma update_job_refused_for_non_admin_witness :
  let w := Fixtures.world1 DocumentStatus.PROCESSING (Fixtures.job IngestionStatus.PENDING None None) in
  let J := Fixtures.job IngestionStatus.PENDING None None in
  let D := Fixtures.doc DocumentStatus.PROCESSING in
  let dto := Build_UpdateIngestionJobDto (Some IngestionStatus.COMPLETED) (None) (None) in
  let user := Fixtures.editor in
  let now := 3000 in
  let r := IngestionService.update (IngestionJob.id J) dto user now w in
  raises r Forbidden
  ∧ r.2 = w
  ∧ (User.id user = Document.uploadedById D →
     r.1 = Throw (ForbiddenException "Only admins can update ingestion jobs")).
Proof.
  apply (update_job_refused_for_non_admin
           (Fixtures.world1 DocumentStatus.PROCESSING (Fixtures.job IngestionStatus.PENDING None None))
           (Fixtures.job IngestionStatus.PENDING None None)
           (Fixtures.doc DocumentStatus.PROCESSING)
           (Build_UpdateIngestionJobDto (Some IngestionStatus.COMPLETED) (None) (None))
           (Fixtures.editor)
           (3000)).
  - reflexivity.
  - reflexivity.
  - reflexivity.
  - simpl; discriminate.
Defined.

Lemma cascades_cases (dto : UpdateIngestionJobDto) (J : IngestionJob.t) :
  cascades dto J
  = match uj_status dto, IngestionJob.completedAt J with
    | Some IngestionStatus.COMPLETED, None => true
    | Some IngestionStatus.FAILED, None => true
    | Some IngestionStatus.CANCELLED, None => true
    | _, _ => false
    end.
Proof.
  unfold cascades, IngestionService.terminalStatus, IngestionStatus.includes.
  by destruct (uj_status dto) as [[]|], (IngestionJob.completedAt J).
Qed.

(** X7.  [IngestionService.update] by an admin saves the merged job and
    cascades only when the payload carries a terminal status and the job
    has no completed-at yet: [completed] gives [processed], [failed] and
    also [cancelled] give [failed].  The loaded job carries no
    [documentId], so the document that the cascade writes is the first row
    of the documents table, whatever document the job belongs to; no other
    document is touched. *)
Theorem update_job_cascade (w : World) (J : IngestionJob.t) (F : Document.t)
    (dto : UpdateIngestionJobDto) (user : User.t) (now : Date) :
  stored_job w J →
  User.role user = UserRole.ADMIN →
  firstRow (documentsRepository w) = Some F →
  stored_document w F →
  let r := IngestionService.update (IngestionJob.id J) dto user now w in
  r.1 = Ok (LoadedJob.load (merged dto now J)
              (documentsRepository w !! IngestionJob.documentId J))
  ∧ ingestionJobsRepository r.2 !! IngestionJob.id J = Some (merged dto now J)
  ∧ documentStatus r.2 (Document.id F)
    = Some (match uj_status dto, IngestionJob.completedAt J with
            | Some IngestionStatus.COMPLETED, None => DocumentStatus.PROCESSED
            | Some IngestionStatus.FAILED, None => DocumentStatus.FAILED
            | Some IngestionStatus.CANCELLED, None => DocumentStatus.FAILED
            | _, _ => Document.status F
            end)
  ∧ (∀ k, k ≠ Document.id F →
          documentsRepository r.2 !! k = documentsRepository w !! k).
Proof.
  intros HJ Hadm HF HD. cbv zeta.
  rewrite (update_admin w J dto user now) by done. cbv zeta.
  rewrite HF, cascades_cases. unfold cascaded, documentStatus.
  destruct (uj_status dto) as [[]|]; destruct (IngestionJob.completedAt J);
    cbn [fst snd set_jobs set_documents documentsRepository
         ingestionJobsRepository];
    rewrite ?lookup_insert_eq, ?HD;
    (split_and!; [done|done|done|]);
    intros k Hk; by rewrite ?lookup_insert_ne.
Qed.

Lemma update_job_cascade_witness :
  let w := Fixtures.world1 DocumentStatus.PROCESSING (Fixtures.job IngestionStatus.PENDING None None) in
  let J := Fixtures.job IngestionStatus.PENDING None None in
  let F := Fixtures.doc DocumentStatus.PROCESSING in
  let dto := Build_UpdateIngestionJobDto (Some IngestionStatus.CANCELLED) (None) (None) in
  let user := Fixtures.admin in
  let now := 3000 in
  let r := IngestionService.update (IngestionJob.id J) dto user now w in
  r.1 = Ok (LoadedJob.load (merged dto now J)
              (documentsRepository w !! IngestionJob.documentId J))
  ∧ ingestionJobsRepository r.2 !! IngestionJob.id J = Some (merged dto now J)
  ∧ documentStatus r.2 (Document.id F)
    = Some (match uj_status dto, IngestionJob.completedAt J with
            | Some IngestionStatus.COMPLETED, None => DocumentStatus.PROCESSED
            | Some IngestionStatus.FAILED, None => DocumentStatus.FAILED
            | Some IngestionStatus.CANCELLED, None => DocumentStatus.FAILED
            | _, _ => Document.status F
            end)
  ∧ (∀ k, k ≠ Document.id F →
          documentsRepository r.2 !! k = documentsRepository w !! k).
Proof.
  apply (update_job_cascade
           (Fixtures.world1 DocumentStatus.PROCESSING (Fixtures.job IngestionStatus.PENDING None None))
           (Fixtures.job IngestionStatus.PENDING None None)
           (Fixtures.doc DocumentStatus.PROCESSING)
           (Build_UpdateIngestionJobDto (Some IngestionStatus.CANCELLED) (None) (None))
           (Fixtures.admin)
           (3000)).
  - reflexivity.
  - reflexivity.
  - reflexivity.
  - reflexivity.
Defined.

(** With an empty documents table the cascade of [update] throws NotFound
    before the job is saved. *)
Lemma update_job_cascade_without_documents (w : World) (J : IngestionJob.t)
    (dto : UpdateIngestionJobDto) (user : User.t) (now : Date) :
  stored_job w J →
  User.role user = UserRole.ADMIN →
  documentsRepository w = ∅ →
  cascades dto J = true →
  IngestionService.update (IngestionJob.id J) dto user now w
  = (Throw (NotFoundException "Document not found"), w).
Proof.
  intros HJ Hadm He Hc. rewrite (update_admin w J dto user now) by done.
  cbv zeta. rewrite Hc, He. done.
Qed.

(** ** The webhook *)

(** The job that [update] and [handleWebhook] save, field by field. *)
Lemma merged_fields (dto : UpdateIngestionJobDto) (now : Date) (J : IngestionJob.t) :
  merged dto now J
  = IngestionJob.mk (IngestionJob.id J)
      (default (IngestionJob.status J) (uj_status dto))
      (from_option Some (IngestionJob.errorMessage J) (uj_errorMessage dto))
      (from_option Some (IngestionJob.result J) (uj_result dto))
      (IngestionJob.config J)
      (match IngestionJob.startedAt J with
       | Some t => Some t
       | None => if decide (uj_status dto = Some IngestionStatus.RUNNING)
                 then Some now else None
       end)
      (match IngestionJob.completedAt J with
       | Some t => Some t
       | None => if IngestionService.terminalStatus dto then Some now else None
       end)
      (IngestionJob.documentId J).
Proof.
  destruct J as [i s e r c [sa|] [ca|] d], dto as [[s'|] [e'|] [r'|]].
  all: cbv beta iota zeta delta
    [merged IngestionService.stampStarted IngestionService.assign
     from_option default uj_status uj_errorMessage uj_result
     IngestionJob.set_status IngestionJob.set_errorMessage
     IngestionJob.set_result IngestionJob.set_startedAt
     IngestionJob.set_completedAt IngestionJob.id IngestionJob.status
     IngestionJob.errorMessage IngestionJob.result IngestionJob.config
     IngestionJob.startedAt IngestionJob.completedAt IngestionJob.documentId].
  all: repeat (case_decide || case_bool_decide).
  all: try destruct (IngestionService.terminalStatus _).
  all: try reflexivity.
  all: exfalso; intuition congruence.
Qed.

Lemma merged_twice (dto : UpdateIngestionJobDto) (t1 t2 : Date)
    (J : IngestionJob.t) :
  merged dto t2 (merged dto t1 J) = merged dto t1 J.
Proof.
  rewrite (merged_fields dto t2), (merged_fields dto t1).
  cbn [IngestionJob.id IngestionJob.status
         IngestionJob.errorMessage IngestionJob.result IngestionJob.config
         IngestionJob.startedAt IngestionJob.completedAt
         IngestionJob.documentId].
  destruct (IngestionService.terminalStatus dto),
    (IngestionJob.startedAt J), (IngestionJob.completedAt J),
    (uj_status dto) as [s|], (uj_errorMessage dto), (uj_result dto);
    cbn [from_option default]; try case_decide; reflexivity.
Qed.

(** X8.  Delivering the same webhook payload a second time, at any later
    time, returns the same job and leaves the world exactly as the first
    delivery left it. *)
Theorem handleWebhook_retry (w : World) (J : IngestionJob.t)
    (dto : UpdateIngestionJobDto) (t1 t2 : Date) :
  stored_job w J →
  let r := IngestionService.handleWebhook (IngestionJob.id J) dto t1 w in
  IngestionService.handleWebhook (IngestionJob.id J) dto t2 r.2 = r.
Proof.
  intros HJ. cbv zeta. rewrite (handleWebhook_stored w J) by done.
  cbn [snd].
  rewrite <- (merged_id dto t1 J) at 1.
  rewrite (handleWebhook_stored _ (merged dto t1 J)).
  - rewrite merged_twice, merged_id. unfold set_jobs.
    cbn [usersRepository documentsRepository ingestionJobsRepository uploads timers].
    by rewrite insert_insert_eq.
  - unfold stored_job, set_jobs. cbn [ingestionJobsRepository].
    rewrite merged_id. apply lookup_insert_eq.
Qed.

Lemma handleWebhook_retry_witness :
  let w := Fixtures.world1 DocumentStatus.PROCESSING (Fixtures.job IngestionStatus.PENDING None None) in
  let J := Fixtures.job IngestionStatus.PENDING None None in
  let dto := Build_UpdateIngestionJobDto (Some IngestionStatus.FAILED) (Some "Processing failed due to unsupported file format") (None) in
  let t1 := 2000 in
  let t2 := 3000 in
  let r := IngestionService.handleWebhook (IngestionJob.id J) dto t1 w in
  IngestionService.handleWebhook (IngestionJob.id J) dto t2 r.2 = r.
Proof.
  apply (handleWebhook_retry
           (Fixtures.world1 DocumentStatus.PROCESSING (Fixtures.job IngestionStatus.PENDING None None))
           (Fixtures.job IngestionStatus.PENDING None None)
           (Build_UpdateIngestionJobDto (Some IngestionStatus.FAILED) (Some "Processing failed due to unsupported file format") (None))
           (2000)
           (3000)).
  - reflexivity.
Defined.

(** X9.  Once a job has a completed-at, neither [handleWebhook] nor
    [update] changes it, whatever the payload and the actor, and [update]
    does not cascade to the documents table again. *)
Theorem completedAt_kept_by_webhook_and_update (w : World) (J : IngestionJob.t)
    (D : Document.t) (dto : UpdateIngestionJobDto) (user : User.t) (now t : Date) :
  stored_job w J →
  stored_document w D →
  IngestionJob.documentId J = Document.id D →
  IngestionJob.completedAt J = Some t →
  let rw := IngestionService.handleWebhook (IngestionJob.id J) dto now w in
  let ru := IngestionService.update (IngestionJob.id J) dto user now w in
  IngestionJob.completedAt <$> ingestionJobsRepository rw.2 !! IngestionJob.id J
  = Some (Some t)
  ∧ IngestionJob.completedAt <$> ingestionJobsRepository ru.2 !! IngestionJob.id J
    = Some (Some t)
  ∧ documentsRepository ru.2 = documentsRepository w.
Proof.
  intros HJ HD HJD Ht. cbv zeta. split_and!.
  - rewrite handleWebhook_stored by done. cbn [snd set_jobs ingestionJobsRepository].
    rewrite lookup_insert_eq. cbn [fmap option_fmap option_map].
    by rewrite (merged_completedAt_kept _ _ _ t).
  - destruct (decide (User.role user = UserRole.ADMIN)) as [Hadm|Hna].
    + rewrite (update_admin w J dto user now) by done. cbv zeta.
      unfold cascades. rewrite Ht, bool_decide_false by done.
      rewrite andb_false_r.
      cbn [snd set_jobs ingestionJobsRepository].
      rewrite lookup_insert_eq. cbn [fmap option_fmap option_map].
      by rewrite (merged_completedAt_kept _ _ _ t).
    + rewrite (update_not_admin w J D dto user now) by done. cbn [snd].
      rewrite HJ. cbn [fmap option_fmap option_map]. by rewrite Ht.
  - destruct (decide (User.role user = UserRole.ADMIN)) as [Hadm|Hna].
    + rewrite (update_admin w J dto user now) by done. cbv zeta.
      unfold cascades. rewrite Ht, bool_decide_false by done.
      by rewrite andb_false_r.
    + by rewrite (update_not_admin w J D dto user now).
Qed.

Lemma completedAt_kept_by_webhook_and_update_witness :
  let w := Fixtures.world1 DocumentStatus.PROCESSED (Fixtures.job IngestionStatus.COMPLETED (Some 1000) (Some 6000)) in
  let J := Fixtures.job IngestionStatus.COMPLETED (Some 1000) (Some 6000) in
  let D := Fixtures.doc DocumentStatus.PROCESSED in
  let dto := Build_UpdateIngestionJobDto (Some IngestionStatus.FAILED) (None) (None) in
  let user := Fixtures.admin in
  let now := 9000 in
  let t := 6000 in
  let rw := IngestionService.handleWebhook (IngestionJob.id J) dto now w in
  let ru := IngestionService.update (IngestionJob.id J) dto user now w in
  IngestionJob.completedAt <$> ingestionJobsRepository rw.2 !! IngestionJob.id J
  = Some (Some t)
  ∧ IngestionJob.completedAt <$> ingestionJobsRepository ru.2 !! IngestionJob.id J
    = Some (Some t)
  ∧ documentsRepository ru.2 = documentsRepository w.
Proof.
  apply (completedAt_kept_by_webhook_and_update
           (Fixtures.world1 DocumentStatus.PROCESSED (Fixtures.job IngestionStatus.COMPLETED (Some 1000) (Some 6000)))
           (Fixtures.job IngestionStatus.COMPLETED (Some 1000) (Some 6000))
           (Fixtures.doc DocumentStatus.PROCESSED)
           (Build_UpdateIngestionJobDto (Some IngestionStatus.FAILED) (None) (None))
           (Fixtures.admin)
           (9000)
           (6000)).
  - reflexivity.
  - reflexivity.
  - reflexivity.
  - reflexivity.
Defined.

(** ** Cancelling twice, deleting a job *)

(** X10.  [cancel] is refused only for completed and failed jobs: on a job
    that is already [cancelled] an admin's [cancel] succeeds again,
    overwrites the completed-at with the current time and sets the first
    row of the documents table to [uploaded], whatever its status was. *)
Theorem cancel_again_by_admin (w : World) (J : IngestionJob.t) (F : Document.t)
    (user : User.t) (now t0 : Date) :
  stored_job w J →
  User.role user = UserRole.ADMIN →
  IngestionJob.status J = IngestionStatus.CANCELLED →
  IngestionJob.completedAt J = Some t0 →
  firstRow (documentsRepository w) = Some F →
  let r := IngestionService.cancel (IngestionJob.id J) user now w in
  r.1 = Ok (LoadedJob.load (cancelled now J)
              (documentsRepository w !! IngestionJob.documentId J))
  ∧ IngestionJob.completedAt <$> ingestionJobsRepository r.2 !! IngestionJob.id J
    = Some (Some now)
  ∧ documentStatus r.2 (Document.id F) = Some DocumentStatus.UPLOADED.
Proof.
  intros HJ Hadm Hst Hc HF. cbv zeta.
  rewrite (cancel_admin w J user) by (try done; congruence).
  cbv zeta. rewrite HF.
  unfold documentStatus, set_documents, set_jobs.
  cbn [fst snd documentsRepository ingestionJobsRepository].
  by rewrite !lookup_insert_eq.
Qed.

Lemma cancel_again_by_admin_witness :
  let w := Fixtures.world1 DocumentStatus.PROCESSING (Fixtures.job IngestionStatus.CANCELLED None (Some 500)) in
  let J := Fixtures.job IngestionStatus.CANCELLED None (Some 500) in
  let F := Fixtures.doc DocumentStatus.PROCESSING in
  let user := Fixtures.admin in
  let now := 900 in
  let t0 := 500 in
  let r := IngestionService.cancel (IngestionJob.id J) user now w in
  r.1 = Ok (LoadedJob.load (cancelled now J)
              (documentsRepository w !! IngestionJob.documentId J))
  ∧ IngestionJob.completedAt <$> ingestionJobsRepository r.2 !! IngestionJob.id J
    = Some (Some now)
  ∧ documentStatus r.2 (Document.id F) = Some DocumentStatus.UPLOADED.
Proof.
  apply (cancel_again_by_admin
           (Fixtures.world1 DocumentStatus.PROCESSING (Fixtures.job IngestionStatus.CANCELLED None (Some 500)))
           (Fixtures.job IngestionStatus.CANCELLED None (Some 500))
           (Fixtures.doc DocumentStatus.PROCESSING)
           (Fixtures.admin)
           (900)
           (500)).
  - reflexivity.
  - reflexivity.
  - reflexivity.
  - reflexivity.
  - reflexivity.
Defined.

Lemma remove_admin (w : World) (J : IngestionJob.t) (user : User.t) :
  stored_job w J →
  User.role user = UserRole.ADMIN →
  IngestionService.remove (IngestionJob.id J) user w
  = (Ok (), set_jobs (delete (IngestionJob.id J)) w).
Proof.
  intros HJ Hadm.
  unfold IngestionService.remove, IngestionService.delete_. step.
  case_decide; [done|]. unfold stored_job in HJ. by rewrite HJ.
Qed.

(** X11.  [IngestionService.remove] by an admin deletes the job row and
    leaves the documents table (so the status of the owning document) and
    the pending timers as they are; the job is then NotFound for everyone,
    and when the outer timer of the simulated processor fires for it,
    nothing is written and no second timer is scheduled. *)
Theorem remove_job_by_admin (w : World) (J : IngestionJob.t) (user : User.t) :
  stored_job w J →
  User.role user = UserRole.ADMIN →
  let r := IngestionService.remove (IngestionJob.id J) user w in
  r.1 = Ok ()
  ∧ ingestionJobsRepository r.2
    = delete (IngestionJob.id J) (ingestionJobsRepository w)
  ∧ documentsRepository r.2 = documentsRepository w
  ∧ timers r.2 = timers w
  ∧ (∀ anyone,
       IngestionService.findOne (IngestionJob.id J) anyone r.2
       = (Throw (NotFoundException "Ingestion job not found"), r.2))
  ∧ ∀ n ms now,
      timers w !! n = Some (Build_Timeout (SimulateRunning (IngestionJob.id J)) ms) →
      IngestionService.fire n now r.2 = (Ok (), set_timers (delete n) r.2).
Proof.
  intros HJ Hadm. cbv zeta. rewrite (remove_admin w J user) by done.
  cbn [fst snd]. split_and!; try done.
  - intros anyone. unfold IngestionService.findOne. step.
    by rewrite lookup_delete_eq.
  - intros n ms now Ht.
    apply (fire_running_missing _ n ms now (IngestionJob.id J)); simpl; [done|].
    apply lookup_delete_eq.
Qed.

Lemma remove_job_by_admin_witness :
  let w := Fixtures.world1 DocumentStatus.PROCESSING (Fixtures.job IngestionStatus.PENDING None None) in
  let J := Fixtures.job IngestionStatus.PENDING None None in
  let user := Fixtures.admin in
  let r := IngestionService.remove (IngestionJob.id J) user w in
  r.1 = Ok ()
  ∧ ingestionJobsRepository r.2
    = delete (IngestionJob.id J) (ingestionJobsRepository w)
  ∧ documentsRepository r.2 = documentsRepository w
  ∧ timers r.2 = timers w
  ∧ (∀ anyone,
       IngestionService.findOne (IngestionJob.id J) anyone r.2
       = (Throw (NotFoundException "Ingestion job not found"), r.2))
  ∧ ∀ n ms now,
      timers w !! n = Some (Build_Timeout (SimulateRunning (IngestionJob.id J)) ms) →
      IngestionService.fire n now r.2 = (Ok (), set_timers (delete n) r.2).
Proof.
  apply (remove_job_by_admin
           (Fixtures.world1 DocumentStatus.PROCESSING (Fixtures.job IngestionStatus.PENDING None None))
           (Fixtures.job IngestionStatus.PENDING None None)
           (Fixtures.admin)).
  - reflexivity.
  - reflexivity.
Defined.

(** ** What create leaves alone *)

(** X12.  Whatever its outcome, [IngestionService.create] leaves every
    existing job as it is, touches no document other than the one named in
    the request, and writes neither users nor files; a job it returns is
    [pending], refers to that document and is stored under a key that was
    free. *)
Theorem create_job_frame (w : World) (dto : CreateIngestionJobDto) (user : User.t) :
  well_keyed w →
  let r := IngestionService.create dto user w in
  (∀ k J, ingestionJobsRepository w !! k = Some J →
          ingestionJobsRepository r.2 !! k = Some J)
  ∧ (∀ k, k ≠ cj_documentId dto →
          documentsRepository r.2 !! k = documentsRepository w !! k)
  ∧ usersRepository r.2 = usersRepository w
  ∧ uploads r.2 = uploads w
  ∧ ∀ J, r.1 = Ok J →
         ingestionJobsRepository w !! IngestionJob.id J = None
         ∧ ingestionJobsRepository r.2 !! IngestionJob.id J = Some J
         ∧ IngestionJob.status J = IngestionStatus.PENDING
         ∧ IngestionJob.documentId J = cj_documentId dto.
Proof.
  intros (Hk & _ & _). cbv zeta. destruct dto as [d config].
  cbn [cj_documentId].
  destruct (documentsRepository w !! d) as [D|] eqn:HD.
  - pose proof (Hk _ _ HD) as <-.
    assert (Hfresh : ∀ k J, ingestionJobsRepository w !! k = Some J →
              k ≠ IngestionJob.id (pendingJob w D config)).
    { intros k J HkJ ->. by rewrite pendingJob_fresh in HkJ. }
    destruct (decide (User.role user = UserRole.ADMIN)) as [Hadm|Hna].
    + destruct (decide (Document.status D = DocumentStatus.PROCESSING)).
      * by rewrite (create_processing w D config user).
      * rewrite (create_admin w D config user) by done.
        unfold set_timers, set_documents, set_jobs.
        cbn [fst snd usersRepository documentsRepository
             ingestionJobsRepository uploads timers].
        split_and!; try done.
        -- intros k J HkJ. rewrite lookup_insert_ne; [done|].
           intros Heq. by apply (Hfresh k J).
        -- intros k Hne. by rewrite lookup_insert_ne.
        -- intros J [= <-]. split_and!; try done.
           ++ apply pendingJob_fresh.
           ++ apply lookup_insert_eq.
    + by rewrite (create_denied w D config user).
  - unfold IngestionService.create, DocumentsService.findOne. step.
    by rewrite HD.
Qed.

Lemma create_job_frame_witness :
  let w := Fixtures.world0 DocumentStatus.UPLOADED in
  let dto := Build_CreateIngestionJobDto "d1" None in
  let user := Fixtures.editor in
  let r := IngestionService.create dto user w in
  (∀ k J, ingestionJobsRepository w !! k = Some J →
          ingestionJobsRepository r.2 !! k = Some J)
  ∧ (∀ k, k ≠ cj_documentId dto →
          documentsRepository r.2 !! k = documentsRepository w !! k)
  ∧ usersRepository r.2 = usersRepository w
  ∧ uploads r.2 = uploads w
  ∧ ∀ J, r.1 = Ok J →
         ingestionJobsRepository w !! IngestionJob.id J = None
         ∧ ingestionJobsRepository r.2 !! IngestionJob.id J = Some J
         ∧ IngestionJob.status J = IngestionStatus.PENDING
         ∧ IngestionJob.documentId J = cj_documentId dto.
Proof.
  apply (create_job_frame
           (Fixtures.world0 DocumentStatus.UPLOADED)
           (Build_CreateIngestionJobDto "d1" None)
           (Fixtures.editor)).
  - apply (bool_decide_unpack _); vm_compute; exact I.
Defined.

(** ** One job at a time *)



(** ** UsersService *)

(** X14.  No actor, admin or not, can delete or deactivate their own
    account: both calls throw Forbidden and write nothing, whether or not
    the account exists. *)
Theorem own_account_is_protected (w : World) (user : User.t) :
  let rd := UsersService.remove (User.id user) user w in
  let rs := UsersService.updateUserStatus (User.id user) user w in
  raises rd Forbidden ∧ rd.2 = w ∧ raises rs Forbidden ∧ rs.2 = w.
Proof.
  cbv zeta. unfold UsersService.remove, UsersService.updateUserStatus, raises.
  step. repeat case_decide; simpl; done.
Qed.

(** X15.  [UsersService.remove] by an admin, for another stored user who
    owns no document (the foreign key of the documents table refuses the
    delete otherwise), deletes that row and nothing else; a second call
    throws NotFound. *)
Theorem remove_user_by_admin (w : World) (U : User.t) (user : User.t) :
  usersRepository w !! User.id U = Some U →
  owns_nothing w (User.id U) →
  User.role user = UserRole.ADMIN →
  User.id user ≠ User.id U →
  let r := UsersService.remove (User.id U) user w in
  r.1 = Ok ()
  ∧ usersRepository r.2 = delete (User.id U) (usersRepository w)
  ∧ documentsRepository r.2 = documentsRepository w
  ∧ ingestionJobsRepository r.2 = ingestionJobsRepository w
  ∧ UsersService.remove (User.id U) user r.2
    = (Throw (NotFoundException "User not found"), r.2).
Proof.
  intros HU _ Hadm Hne. cbv zeta.
  unfold UsersService.remove, UsersService.delete_. step.
  repeat (case_decide; [done|]). rewrite HU. simpl.
  split_and!; try done.
  repeat (case_decide; [done|]). by rewrite lookup_delete_eq.
Qed.

Lemma remove_user_by_admin_witness :
  let w := Fixtures.world0 DocumentStatus.UPLOADED in
  let U := Fixtures.viewer in
  let user := Fixtures.admin in
  let r := UsersService.remove (User.id U) user w in
  r.1 = Ok ()
  ∧ usersRepository r.2 = delete (User.id U) (usersRepository w)
  ∧ documentsRepository r.2 = documentsRepository w
  ∧ ingestionJobsRepository r.2 = ingestionJobsRepository w
  ∧ UsersService.remove (User.id U) user r.2
    = (Throw (NotFoundException "User not found"), r.2).
Proof.
  apply (remove_user_by_admin
           (Fixtures.world0 DocumentStatus.UPLOADED)
           (Fixtures.viewer)
           (Fixtures.admin)).
  - reflexivity.
  - apply (bool_decide_unpack _); vm_compute; exact I.
  - reflexivity.
  - simpl; discriminate.
Defined.

(** X16.  [updateUserStatus] by an admin negates the active flag of
    another stored user, and a second call restores the world exactly. *)
Theorem updateUserStatus_twice (w : World) (U : User.t) (user : User.t) :
  usersRepository w !! User.id U = Some U →
  User.role user = UserRole.ADMIN →
  User.id user ≠ User.id U →
  let r1 := UsersService.updateUserStatus (User.id U) user w in
  let r2 := UsersService.updateUserStatus (User.id U) user r1.2 in
  r1.1 = Ok (User.set_isActive (negb (User.isActive U)) U)
  ∧ r2.1 = Ok U
  ∧ r2.2 = w.
Proof.
  intros HU Hadm Hne. cbv zeta.
  unfold UsersService.updateUserStatus. step.
  repeat (case_decide; [done|]). rewrite HU. simpl.
  repeat (case_decide; [done|]). rewrite lookup_insert_eq. simpl.
  destruct U as [i e f l p r a]. simpl in *.
  rewrite negb_involutive. split_and!; try done.
  destruct w as [us ds js up ts]. unfold set_users. simpl in *. f_equal.
  rewrite insert_insert_eq. by apply insert_id.
Qed.

Lemma updateUserStatus_twice_witness :
  let w := Fixtures.world0 DocumentStatus.UPLOADED in
  let U := Fixtures.viewer in
  let user := Fixtures.admin in
  let r1 := UsersService.updateUserStatus (User.id U) user w in
  let r2 := UsersService.updateUserStatus (User.id U) user r1.2 in
  r1.1 = Ok (User.set_isActive (negb (User.isActive U)) U)
  ∧ r2.1 = Ok U
  ∧ r2.2 = w.
Proof.
  apply (updateUserStatus_twice
           (Fixtures.world0 DocumentStatus.UPLOADED)
           (Fixtures.viewer)
           (Fixtures.admin)).
  - reflexivity.
  - reflexivity.
  - simpl; discriminate.
Defined.

(** X17.  [updateRole] has no guard on the actor's own id: an admin can
    set their own role to a role that is not admin, and with the stored
    record every later [updateRole] is then refused. *)
Theorem admin_can_demote_themself (w : World) (U : User.t) (role : UserRole.t) :
  usersRepository w !! User.id U = Some U →
  User.role U = UserRole.ADMIN →
  role ≠ UserRole.ADMIN →
  let r := UsersService.updateRole (User.id U) role U w in
  let U' := User.set_role role U in
  r.1 = Ok U'
  ∧ usersRepository r.2 !! User.id U = Some U'
  ∧ ∀ id role',
      UsersService.updateRole id role' U' r.2
      = (Throw (ForbiddenException "Only admins can update user roles"), r.2).
Proof.
  intros HU Hadm Hrole. cbv zeta.
  unfold UsersService.updateRole. step.
  case_decide; [done|]. rewrite HU. simpl.
  split_and!; try done.
  - apply lookup_insert_eq.
  - intros id role'. by case_decide.
Qed.

Lemma admin_can_demote_themself_witness :
  let w := Fixtures.world0 DocumentStatus.UPLOADED in
  let U := Fixtures.admin in
  let role := UserRole.VIEWER in
  let r := UsersService.updateRole (User.id U) role U w in
  let U' := User.set_role role U in
  r.1 = Ok U'
  ∧ usersRepository r.2 !! User.id U = Some U'
  ∧ ∀ id role',
      UsersService.updateRole id role' U' r.2
      = (Throw (ForbiddenException "Only admins can update user roles"), r.2).
Proof.
  apply (admin_can_demote_themself
           (Fixtures.world0 DocumentStatus.UPLOADED)
           (Fixtures.admin)
           (UserRole.VIEWER)).
  - reflexivity.
  - reflexivity.
  - discriminate.
Defined.

Ltac unfold_all_services :=
  unfold IngestionService.create, IngestionService.update,
    IngestionService.cancel, IngestionService.findOne,
    IngestionService.findAll,
    IngestionService.handleWebhook, IngestionService.remove,
    IngestionService.delete_, IngestionService.fire,
    IngestionService.runCallback, IngestionService.simulateIngestionProcess,
    IngestionService.create_and_save, IngestionService.save,
    IngestionService.saveLoaded,
    IngestionService.notAdminNorOwner, IngestionService.notOwner,
    UsersService.update, UsersService.remove, UsersService.delete_,
    UsersService.updateRole, UsersService.updateUserStatus,
    DocumentsService.create, DocumentsService.findAll,
    DocumentsService.downloadDocument,
    DocumentsService.findOne, DocumentsService.update,
    DocumentsService.remove, DocumentsService.updateStatus, findOneWhere.

Ltac split_matches :=
  repeat (first
    [ case_decide | case_bool_decide
    | match goal with
      | |- context [match ?x with Some _ => _ | None => _ end] => destruct x eqn:?
      | |- context [match ?x with SimulateRunning _ => _ | SimulateCompleted _ => _ end] =>
          destruct x eqn:?
      | |- context [if ?x then _ else _] => destruct x eqn:?
      end ];
    simpl).

Lemma users_step_event (e : Event) (w : World) : users_step w (step e w).
Proof.
  unfold users_step.
  destruct e as [[] user now|jobId dto now|n now]; cbn [step perform];
    unfold_all_services; step.
  all: split_matches.
  all: try (by left).
  all: try (by right; right; eexists).
  all: match goal with
       | |- context [<[_ := ?v]> _] => right; left; by exists v
       end.
Qed.

Lemma same_file_assign (dto : UpdateDocumentDto) (D : Document.t) :
  same_file D (DocumentsService.assign dto D).
Proof. by destruct dto as [[?|] [?|] [?|]]. Qed.

Lemma same_file_set_status (s : DocumentStatus.t) (D : Document.t) :
  same_file D (Document.set_status s D).
Proof. done. Qed.

Lemma firstRow_well_keyed (w : World) (F : Document.t) :
  well_keyed w →
  firstRow (documentsRepository w) = Some F →
  stored_document w F.
Proof.
  intros (Hd & _ & _) [k Hk]%firstRow_stored. unfold stored_document.
  by rewrite (Hd _ _ Hk).
Qed.

Lemma documents_step_event (e : Event) (w : World) :
  well_keyed w → documents_step w (step e w).
Proof.
  intros Hw. pose proof Hw as (Hd & _ & _). unfold documents_step.
  destruct e as [[] user now|jobId dto now|n now]; cbn [step perform];
    unfold_all_services; step.
  all: split_matches.
  all: try (by left).
  all: try (by right; right; eexists).
  all: repeat match goal with
       | Hw0 : well_keyed ?w0,
         Heq : firstRow (documentsRepository ?w0) = Some _ |- _ =>
           apply (firstRow_well_keyed _ _ Hw0) in Heq;
           unfold stored_document in Heq
       end.
  all: match goal with
       | |- context [<[_ := ?v]> (documentsRepository _)] =>
           right; left; exists v; split; [done|]; intros D0 HD0
       end.
  all: try match goal with
       | Heq : documentsRepository _ !! Document.id ?t = Some ?t
         |- same_file _ (Document.set_status _ ?t) =>
           simpl in HD0; rewrite Heq in HD0; by injection HD0 as <-
       end.
  all: match goal with
       | Heq : documentsRepository _ !! _ = Some ?t
         |- same_file _ (DocumentsService.assign _ ?t) =>
           rewrite (proj1 (same_file_assign _ t)), (Hd _ _ Heq) in HD0;
           rewrite Heq in HD0; injection HD0 as <-; apply same_file_assign
       | Heq : documentsRepository _ !! _ = Some ?t
         |- same_file _ (Document.set_status _ ?t) =>
           simpl in HD0; rewrite (Hd _ _ Heq) in HD0;
           rewrite Heq in HD0; by injection HD0 as <-
       | |- _ =>
           exfalso; simpl in HD0;
           eapply (is_fresh (dom (documentsRepository _)));
           apply elem_of_dom; by eexists
       end.
Qed.

Lemma terminalStatus_true (dto : UpdateIngestionJobDto) (s : IngestionStatus.t) :
  uj_status dto = Some s →
  terminal s →
  IngestionService.terminalStatus dto = true.
Proof.
  intros Hs Ht. unfold IngestionService.terminalStatus, IngestionStatus.includes.
  rewrite Hs. simpl. by apply bool_decide_eq_true_2.
Qed.

Lemma stamped_merged (dto : UpdateIngestionJobDto) (now : Date) (J : IngestionJob.t) :
  stamped J → stamped (merged dto now J).
Proof.
  intros [Hrun Hterm]. rewrite merged_fields. unfold stamped.
  cbn [IngestionJob.status IngestionJob.startedAt IngestionJob.completedAt].
  destruct (uj_status dto) as [s|] eqn:Hs; cbn [default from_option id].
  - split.
    + intros ->. destruct (IngestionJob.startedAt J); [by eexists|].
      rewrite decide_True by done. by eexists.
    + intros Ht. destruct (IngestionJob.completedAt J); [by eexists|].
      rewrite (terminalStatus_true dto s) by done. by eexists.
  - split.
    + intros Hr. destruct (Hrun Hr) as [t ->]. by eexists.
    + intros Ht. destruct (Hterm Ht) as [t ->]. by eexists.
Qed.

Ltac solve_stamped :=
  split; simpl; intros Hx;
  [ first [ discriminate | by eexists ]
  | first [ apply terminal_cases in Hx; destruct Hx as [Hx|[Hx|Hx]]; discriminate
          | by eexists ] ].

(** [cancel] leaves the jobs table alone or writes the cancelled job. *)
Lemma cancel_cases (w : World) (J : IngestionJob.t) (user : User.t) (now : Date) :
  stored_job w J →
  let r := IngestionService.cancel (IngestionJob.id J) user now w in
  ingestionJobsRepository r.2 = ingestionJobsRepository w
  ∨ ingestionJobsRepository r.2
    = <[IngestionJob.id J := cancelled now J]> (ingestionJobsRepository w).
Proof.
  intros HJ. cbv zeta.
  unfold IngestionService.cancel, IngestionService.findOne,
    IngestionService.notAdminNorOwner, IngestionService.notOwner,
    IngestionService.saveLoaded, DocumentsService.updateStatus, findOneWhere.
  step. rewrite HJ. step. split_matches.
  all: first [ by left | right; by rewrite (alter_alt_Some _ _ _ J HJ) ].
Qed.

Lemma jobs_step_event (e : Event) (w : World) :
  well_keyed w → jobs_step w (step e w).
Proof.
  intros (_ & Hj & _). unfold jobs_step.
  destruct e as [op user now|jobId dto now|n now]; cbn [step].
  - destruct op; cbn [perform].
    11: { (* UpdateJob *)
      destruct (ingestionJobsRepository w !! id) as [J|] eqn:HJ.
      + pose proof (Hj _ _ HJ) as <-.
        pose proof (update_cases w J dto user now HJ) as H. cbv zeta in H.
        destruct (IngestionService.update (IngestionJob.id J) dto user now w)
          as [[J'|e] w']; cbn [fst snd] in *.
        * destruct H as (_ & Hjobs & _). right; left.
          exists (merged dto now J). rewrite merged_id. split; [done|].
          intros Hok. apply stamped_merged. by apply (Hok _ _ HJ).
        * left. by subst w'.
      + left. unfold IngestionService.update, IngestionService.findOne. step.
        by rewrite HJ. }
    11: { (* CancelJob *)
      destruct (ingestionJobsRepository w !! id) as [J|] eqn:HJ.
      + pose proof (Hj _ _ HJ) as <-.
        destruct (cancel_cases w J user now HJ) as [E|E]; [by left|].
        right; left. exists (cancelled now J). split; [done|]. intros _.
        solve_stamped.
      + left. unfold IngestionService.cancel, IngestionService.findOne. step.
        by rewrite HJ. }
    all: unfold_all_services; step; split_matches;
      first [ by left
            | by right; right; eexists
            | match goal with
              | |- context [<[_ := ?v]> (ingestionJobsRepository _)] =>
                  right; left; exists v; split; [done|]; intros _;
                  solve_stamped
              end ].
  - destruct (ingestionJobsRepository w !! jobId) as [J|] eqn:HJ.
    + pose proof (Hj _ _ HJ) as <-.
      rewrite (handleWebhook_stored w J) by done. right; left.
      exists (merged dto now J). rewrite merged_id. split; [done|].
      intros Hok. apply stamped_merged. by apply (Hok _ _ HJ).
    + left. by rewrite handleWebhook_unknown.
  - unfold_all_services; step; split_matches;
      first [ by left
            | match goal with
              | |- context [<[_ := ?v]> (ingestionJobsRepository _)] =>
                  right; left; exists v; split; [done|]; intros _;
                  solve_stamped
              end ].
Qed.

Lemma assign_keeps_status (dto : UpdateDocumentDto) (D : Document.t) :
  ud_status dto = None →
  Document.status (DocumentsService.assign dto D) = Document.status D.
Proof. destruct dto as [[?|] [?|] [?|]]; simpl; by intros. Qed.

Lemma insert_other_row {A} (m : gmap string A) (k k' : string) (x y v : A) :
  m !! k = Some x → m !! k' = Some y → x ≠ y → <[k' := v]> m !! k = Some x.
Proof.
  intros Hk Hk' Hne. rewrite lookup_insert_ne; [done|]. intros <-. congruence.
Qed.

Lemma delete_other_row {A} (m : gmap string A) (k k' : string) (x y : A) :
  m !! k = Some x → m !! k' = Some y → x ≠ y → delete k' m !! k = Some x.
Proof.
  intros Hk Hk' Hne. rewrite lookup_delete_ne; [done|]. intros <-. congruence.
Qed.

Lemma insert_fresh_row {A} (m : gmap string A) (k : string) (x v : A) :
  m !! k = Some x → <[fresh (dom m) := v]> m !! k = Some x.
Proof.
  intros Hk. rewrite lookup_insert_ne; [done|]. intros <-.
  apply (is_fresh (dom m)), elem_of_dom. by eexists.
Qed.

Lemma assign_user_id (dto : UpdateUserDto) (U : User.t) :
  User.id (UsersService.assign dto U) = User.id U.
Proof. by destruct dto as [[?|] [?|] [?|] [?|] [?|]]. Qed.

Lemma assign_user_role (dto : UpdateUserDto) (U : User.t) :
  uu_role dto = None →
  User.role (UsersService.assign dto U) = User.role U.
Proof. destruct dto as [[?|] [?|] [?|] [?|] [?|]]; simpl; by intros. Qed.

(** [create] by an actor who is not an admin writes nothing. *)
Lemma create_not_admin (w : World) (dto : CreateIngestionJobDto) (user : User.t) :
  User.role user ≠ UserRole.ADMIN →
  (IngestionService.create dto user w).2 = w.
Proof.
  intros Hna. unfold IngestionService.create, DocumentsService.findOne. step.
  destruct (documentsRepository w !! cj_documentId dto); simpl; [|done].
  case_decide; [done|]. exfalso. intuition congruence.
Qed.

(** [cancel] by an actor who is not an admin never writes a document, and
    writes only a job that the actor owns through its document. *)
Lemma cancel_not_admin (w : World) (J : IngestionJob.t) (user : User.t)
    (now : Date) :
  stored_job w J →
  User.role user ≠ UserRole.ADMIN →
  let r := IngestionService.cancel (IngestionJob.id J) user now w in
  documentsRepository r.2 = documentsRepository w
  ∧ usersRepository r.2 = usersRepository w
  ∧ (ingestionJobsRepository r.2 = ingestionJobsRepository w
     ∨ jobOwnedBy w J (User.id user)).
Proof.
  intros HJ Hna. cbv zeta.
  unfold IngestionService.cancel, IngestionService.findOne,
    IngestionService.notAdminNorOwner, IngestionService.notOwner,
    IngestionService.saveLoaded, DocumentsService.updateStatus, findOneWhere.
  step. rewrite HJ. step.
  destruct (decide (User.role user ≠ UserRole.ADMIN)); [|done].
  destruct (documentsRepository w !! IngestionJob.documentId J) as [D|] eqn:HD;
    simpl; [|by split_and!; [..|left]].
  case_bool_decide as Hown; simpl; [by split_and!; [..|left]|].
  case_decide; simpl; [by split_and!; [..|left]|].
  case_bool_decide; [done|]; simpl.
  split_and!; [done|done|]. right. exists D. split; [done|].
  by destruct (decide (Document.uploadedById D = User.id user)).
Qed.

Lemma non_admin_users (w : World) (op : Operation) (user : User.t) (now : Date) :
  well_keyed w →
  User.role user ≠ UserRole.ADMIN →
  let w' := perform op user now w in
  (∀ k U, usersRepository w !! k = Some U →
          k ≠ User.id user →
          usersRepository w' !! k = Some U)
  ∧ (∀ k U U', usersRepository w !! k = Some U →
               usersRepository w' !! k = Some U' →
               User.role U' = User.role U).
Proof.
  intros (_ & Hj & Hu) Hna. cbv zeta.
  assert (Hsame : ∀ w', usersRepository w' = usersRepository w →
    (∀ k U, usersRepository w !! k = Some U →
            k ≠ User.id user →
            usersRepository w' !! k = Some U)
    ∧ (∀ k U U', usersRepository w !! k = Some U →
                 usersRepository w' !! k = Some U' →
                 User.role U' = User.role U)).
  { intros w' ->. split; [done|]. intros k U U' H1 H2. congruence. }
  destruct op; cbn [perform].
  14: { (* UpdateUser *)
    unfold UsersService.update. step.
    destruct (usersRepository w !! id) as [t|] eqn:Ht; simpl; [|by apply Hsame].
    case_decide as Hr; simpl; [by apply Hsame|].
    case_decide as Hs; simpl; [by apply Hsame|].
    assert (id = User.id user) as ->.
    { destruct (decide (User.id user = id)); [done|]. exfalso. by apply Hs. }
    assert (uu_role dto = None) as Hrole.
    { destruct (uu_role dto); [|done]. exfalso. apply Hr. by split. }
    rewrite assign_user_id, (Hu _ _ Ht). split.
    - intros k U HU Hk. by rewrite lookup_insert_ne.
    - intros k U U' HU. rewrite lookup_insert. case_decide as Hk.
      + intros [= <-]. subst k. rewrite assign_user_role by done. congruence.
      + congruence. }
  11: { (* UpdateJob *)
    destruct (update_not_admin_throws w id dto user now Hna) as [e ->].
    by apply Hsame. }
  11: { (* CancelJob *)
    destruct (ingestionJobsRepository w !! id) as [J|] eqn:HJ.
    - pose proof (Hj _ _ HJ) as <-. apply Hsame.
      by apply (cancel_not_admin w J user now).
    - apply Hsame. unfold IngestionService.cancel, IngestionService.findOne.
      step. by rewrite HJ. }
  8: { (* CreateJob *) apply Hsame. by rewrite create_not_admin. }
  all: apply Hsame; unfold_all_services; step; split_matches; done.
Qed.

Lemma non_admin_perform (w : World) (op : Operation) (user : User.t) (now : Date) :
  well_keyed w →
  User.role user ≠ UserRole.ADMIN →
  let w' := perform op user now w in
  (∀ k D, documentsRepository w !! k = Some D →
          Document.uploadedById D ≠ User.id user →
          documentsRepository w' !! k = Some D)
  ∧ (∀ k D D', documentsRepository w !! k = Some D →
               documentsRepository w' !! k = Some D' →
               Document.status D' = Document.status D)
  ∧ (∀ k J, ingestionJobsRepository w !! k = Some J →
            ¬ jobOwnedBy w J (User.id user) →
            ingestionJobsRepository w' !! k = Some J).
Proof.
  intros (Hd & Hj & _) Hna. cbv zeta.
  assert (Hsame : ∀ w',
    documentsRepository w' = documentsRepository w →
    (∀ k J, ingestionJobsRepository w !! k = Some J →
            ¬ jobOwnedBy w J (User.id user) →
            ingestionJobsRepository w' !! k = Some J) →
    (∀ k D, documentsRepository w !! k = Some D →
            Document.uploadedById D ≠ User.id user →
            documentsRepository w' !! k = Some D)
    ∧ (∀ k D D', documentsRepository w !! k = Some D →
                 documentsRepository w' !! k = Some D' →
                 Document.status D' = Document.status D)
    ∧ (∀ k J, ingestionJobsRepository w !! k = Some J →
              ¬ jobOwnedBy w J (User.id user) →
              ingestionJobsRepository w' !! k = Some J)).
  { intros w' -> HJ. split_and!; [done| |done]. intros k D D' H1 H2. congruence. }
  destruct op; cbn [perform].
  14: { (* UpdateUser *)
    apply Hsame; unfold UsersService.update; step; split_matches; done. }
  11: { (* UpdateJob *)
    destruct (update_not_admin_throws w id dto user now Hna) as [e ->].
    by apply Hsame. }
  11: { (* CancelJob *)
    destruct (ingestionJobsRepository w !! id) as [J|] eqn:HJ.
    - pose proof (Hj _ _ HJ) as <-.
      destruct (cancel_not_admin w J user now HJ Hna) as (Ed & _ & Ej).
      apply Hsame; [done|]. intros k J' HJ' Hno.
      destruct (cancel_cases w J user now HJ) as [E|E]; rewrite E; [done|].
      destruct Ej as [Ej|Hown]; [by rewrite <- E, Ej|].
      rewrite lookup_insert_ne; [done|]. intros <-.
      rewrite HJ in HJ'. by simplify_eq.
    - apply Hsame; unfold IngestionService.cancel, IngestionService.findOne;
        step; by rewrite HJ. }
  8: { (* CreateJob *) rewrite create_not_admin by done. by apply Hsame. }
  all: unfold_all_services; step; split_matches; try tauto.
  all: split_and!; try done.
  all: intros; try congruence.
  (* rows stored under a fresh key *)
  all: try (by apply insert_fresh_row).
  all: try match goal with
       | H : <[fresh (dom ?m) := _]> ?m !! ?k = Some _, H' : ?m !! ?k = Some _ |- _ =>
           rewrite (insert_fresh_row m k _ _ H') in H; congruence
       end.
  (* rows stored under the key of the row that was read *)
  all: rewrite ?(proj1 (same_file_assign _ _)) in *.
  all: repeat match goal with
       | Heq : documentsRepository _ !! ?k0 = Some ?t |- context [Document.id ?t] =>
           rewrite (Hd _ _ Heq) in *
       | Heq : documentsRepository _ !! ?k0 = Some ?t,
         H : context [Document.id ?t] |- _ =>
           rewrite (Hd _ _ Heq) in H
       | Heq : ingestionJobsRepository _ !! ?k0 = Some ?t |- context [IngestionJob.id ?t] =>
           rewrite (Hj _ _ Heq) in *
       end.
  all: try match goal with
       | Hk : ?m !! ?k = Some ?x, Hr : ?m !! ?k' = Some ?y
         |- <[?k' := _]> ?m !! ?k = Some ?x =>
           apply (insert_other_row m k k' x y _ Hk Hr); intros ->
       | Hk : ?m !! ?k = Some ?x, Hr : ?m !! ?k' = Some ?y
         |- delete ?k' ?m !! ?k = Some ?x =>
           apply (delete_other_row m k k' x y Hk Hr); intros ->
       | H : <[?k' := _]> ?m !! ?k = Some _ |- _ =>
           rewrite lookup_insert in H; case_decide; simplify_eq;
           [rewrite assign_keeps_status|]
       | H : delete ?k' ?m !! ?k = Some _ |- _ =>
           rewrite lookup_delete in H; case_decide; simplify_eq
       end.
  all: try congruence; try tauto.
  destruct (ud_status dto); [|done]. exfalso. apply H. split; [by eexists|done].
Qed.

(** ** What an actor who is not an admin cannot do *)

(** X18.  No call of a service method on behalf of an actor who is not an
    admin changes the status of a document that stays stored. *)
Theorem non_admin_never_changes_document_status (w : World) (op : Operation)
    (user : User.t) (now : Date) (k : string) (D D' : Document.t) :
  well_keyed w →
  User.role user ≠ UserRole.ADMIN →
  documentsRepository w !! k = Some D →
  documentsRepository (perform op user now w) !! k = Some D' →
  Document.status D' = Document.status D.
Proof. intros Hw Hna. by apply (non_admin_perform w op user now Hw Hna). Qed.

Lemma non_admin_never_changes_document_status_witness :
  let w := Fixtures.world0 DocumentStatus.UPLOADED in
  let op := UpdateDocument "d1" (Build_UpdateDocumentDto (Some "Quarterly report") None None) in
  let user := Fixtures.editor in
  let now := 0 in
  let k := "d1" in
  let D := Fixtures.doc DocumentStatus.UPLOADED in
  let D' := Document.set_description (Some "Quarterly report") (Fixtures.doc DocumentStatus.UPLOADED) in
  Document.status D' = Document.status D.
Proof.
  apply (non_admin_never_changes_document_status
           (Fixtures.world0 DocumentStatus.UPLOADED)
           (UpdateDocument "d1" (Build_UpdateDocumentDto (Some "Quarterly report") None None))
           (Fixtures.editor)
           (0)
           ("d1")
           (Fixtures.doc DocumentStatus.UPLOADED)
           (Document.set_description (Some "Quarterly report") (Fixtures.doc DocumentStatus.UPLOADED))).
  - apply (bool_decide_unpack _); vm_compute; exact I.
  - simpl; discriminate.
  - reflexivity.
  - reflexivity.
Defined.

(** X19.  A call on behalf of an actor who is not an admin leaves the row
    of every other user, every document owned by somebody else and every
    job that the actor does not own through its document exactly as they
    were, and changes the role of no user; the actor can change the
    profile fields of their own row through [UsersService.update]. *)
Theorem non_admin_cannot_touch_others_data (w : World) (op : Operation)
    (user : User.t) (now : Date) :
  well_keyed w →
  User.role user ≠ UserRole.ADMIN →
  let w' := perform op user now w in
  (∀ k U, usersRepository w !! k = Some U →
          k ≠ User.id user →
          usersRepository w' !! k = Some U)
  ∧ (∀ k U U', usersRepository w !! k = Some U →
               usersRepository w' !! k = Some U' →
               User.role U' = User.role U)
  ∧ (∀ k D, documentsRepository w !! k = Some D →
            Document.uploadedById D ≠ User.id user →
            documentsRepository w' !! k = Some D)
  ∧ (∀ k J, ingestionJobsRepository w !! k = Some J →
            ¬ jobOwnedBy w J (User.id user) →
            ingestionJobsRepository w' !! k = Some J).
Proof.
  intros Hw Hna.
  destruct (non_admin_users w op user now Hw Hna) as (H1 & H2).
  destruct (non_admin_perform w op user now Hw Hna) as (H3 & _ & H4).
  by split_and!.
Qed.

Lemma non_admin_cannot_touch_others_data_witness :
  let w := Fixtures.world0 DocumentStatus.UPLOADED in
  let op := UpdateUser "u-viewer" (Build_UpdateUserDto None (Some "Victor") None None None) in
  let user := Fixtures.viewer in
  let now := 0 in
  let w' := perform op user now w in
  (∀ k U, usersRepository w !! k = Some U →
          k ≠ User.id user →
          usersRepository w' !! k = Some U)
  ∧ (∀ k U U', usersRepository w !! k = Some U →
               usersRepository w' !! k = Some U' →
               User.role U' = User.role U)
  ∧ (∀ k D, documentsRepository w !! k = Some D →
            Document.uploadedById D ≠ User.id user →
            documentsRepository w' !! k = Some D)
  ∧ (∀ k J, ingestionJobsRepository w !! k = Some J →
            ¬ jobOwnedBy w J (User.id user) →
            ingestionJobsRepository w' !! k = Some J).
Proof.
  apply (non_admin_cannot_touch_others_data
           (Fixtures.world0 DocumentStatus.UPLOADED)
           (UpdateUser "u-viewer" (Build_UpdateUserDto None (Some "Victor") None None None))
           (Fixtures.viewer)
           (0)).
  - apply (bool_decide_unpack _); vm_compute; exact I.
  - simpl; discriminate.
Defined.

(** ** Invariants of every event *)

Lemma well_keyed_step (e : Event) (w : World) :
  well_keyed w → well_keyed (step e w).
Proof.
  intros Hw. pose proof Hw as (Hd & Hj & Hu).
  destruct (documents_step_event e w Hw) as [Ed|[(D' & Ed & _)|(kd & Ed)]];
  destruct (jobs_step_event e w Hw) as [Ej|[(J' & Ej & _)|(kj & Ej)]];
  destruct (users_step_event e w) as [Eu|[(U' & Eu)|(ku & Eu)]];
  unfold well_keyed; rewrite Ed, Ej, Eu; split_and!; try done;
  intros k x; rewrite ?lookup_insert, ?lookup_delete; case_decide;
  try done; try congruence; auto.
Qed.

Lemma timestamps_ok_step (e : Event) (w : World) :
  well_keyed w → timestamps_ok w → timestamps_ok (step e w).
Proof.
  intros Hw Hok. unfold timestamps_ok.
  destruct (jobs_step_event e w Hw) as [Ej|[(J' & Ej & HJ')|(kj & Ej)]];
    rewrite Ej; [done| |]; intros k J.
  - rewrite lookup_insert. case_decide; [|by apply Hok].
    intros [= <-]. by apply HJ'.
  - rewrite lookup_delete. case_decide; [done|]. by apply Hok.
Qed.

(** X20.  Along every sequence of calls, webhook callbacks and timers,
    rows stay stored under their own ids, every [running] job has a
    started-at and every [completed], [failed] or [cancelled] job has a
    completed-at, provided this holds at the start. *)
Theorem invariants_of_every_trace (es : list Event) (w : World) :
  well_keyed w →
  timestamps_ok w →
  well_keyed (exec es w) ∧ timestamps_ok (exec es w).
Proof.
  revert w. induction es as [|e es IH]; intros w Hw Hok; [done|].
  cbn [exec foldl]. apply IH.
  - by apply well_keyed_step.
  - by apply timestamps_ok_step.
Qed.

Lemma invariants_of_every_trace_witness :
  let es := [Call (CreateJob (Build_CreateIngestionJobDto "d1" None)) Fixtures.admin 0; Timer 0%nat 1000; Timer 0%nat 6000] in
  let w := Fixtures.world0 DocumentStatus.UPLOADED in
  well_keyed (exec es w) ∧ timestamps_ok (exec es w).
Proof.
  apply (invariants_of_every_trace
           ([Call (CreateJob (Build_CreateIngestionJobDto "d1" None)) Fixtures.admin 0; Timer 0%nat 1000; Timer 0%nat 6000])
           (Fixtures.world0 DocumentStatus.UPLOADED)).
  - apply (bool_decide_unpack _); vm_compute; exact I.
  - apply (bool_decide_unpack _); vm_compute; exact I.
Defined.

(** X21.  No call, webhook callback or timer changes the id, the owner,
    the file name, the original name, the media type, the size or the path
    of a document that stays stored. *)
Theorem document_file_and_owner_never_change (e : Event) (w : World)
    (k : string) (D D' : Document.t) :
  well_keyed w →
  documentsRepository w !! k = Some D →
  documentsRepository (step e w) !! k = Some D' →
  same_file D D'.
Proof.
  intros Hw HD HD'.
  destruct (documents_step_event e w Hw) as [Ed|[(X & Ed & HX)|(kd & Ed)]];
    rewrite Ed in HD'.
  - by simplify_eq.
  - rewrite lookup_insert in HD'. case_decide; simplify_eq; [by apply HX|done].
  - rewrite lookup_delete in HD'. case_decide; by simplify_eq.
Qed.

Lemma document_file_and_owner_never_change_witness :
  let e := Call (UpdateDocumentStatus "d1" DocumentStatus.FAILED) Fixtures.admin 0 in
  let w := Fixtures.world0 DocumentStatus.UPLOADED in
  let k := "d1" in
  let D := Fixtures.doc DocumentStatus.UPLOADED in
  let D' := Fixtures.doc DocumentStatus.FAILED in
  same_file D D'.
Proof.
  apply (document_file_and_owner_never_change
           (Call (UpdateDocumentStatus "d1" DocumentStatus.FAILED) Fixtures.admin 0)
           (Fixtures.world0 DocumentStatus.UPLOADED)
           ("d1")
           (Fixtures.doc DocumentStatus.UPLOADED)
           (Fixtures.doc DocumentStatus.FAILED)).
  - apply (bool_decide_unpack _); vm_compute; exact I.
  - reflexivity.
  - reflexivity.
Defined.

